(** * instagram-hashtag-fetcher: a shallow embedding of [main.py]

    The program polls a hashtag endpoint page by page, flattens every node of
    a page into a nine-key record, stops on a date boundary, an empty page or
    a failed request, and writes the records to a pipe-delimited file.

    Python values are embedded as an inductive type of JSON-shaped values,
    exceptions as an error monad, the [while] loop as a fuelled iteration of
    one loop body, the network as the sequence of answers the upstream gives,
    and the file system as a finite map from paths to file contents. *)

From Stdlib Require Import ZArith Lia List Ascii String.
From stdpp Require Import base list gmap strings pretty.

Set Warnings "-register-all".

Local Open Scope Z_scope.

(** ** Exceptions and the error monad *)

(** The exception classes the program can meet.  All of them derive from
    Python's [Exception], which is what the [except] clause of [get_posts]
    catches. *)
Inductive exn : Type :=
  | KeyError
  | TypeError
  | AttributeError
  | IndexError
  | ValueError
  | RequestException
  | JSONDecodeError.

Inductive result (A : Type) : Type :=
  | Ok (a : A)
  | Raise (e : exn).

Arguments Ok {A} a.
Arguments Raise {A} e.

Definition bind {A B : Type} (r : result A) (k : A -> result B) : result B :=
  match r with
  | Ok a => k a
  | Raise e => Raise e
  end.

Notation "'let*' x ':=' r 'in' k" := (bind r (fun x => k))
  (at level 10, x pattern, r at level 100, k at level 200).


(** Evaluation of a list comprehension whose element expression may raise:
    elements are visited in order and the first exception ends it. *)
Fixpoint map_result {A B : Type} (f : A -> result B) (l : list A)
  : result (list B) :=
  match l with
  | [] => Ok []
  | x :: xs =>
      let* y := f x in
      let* ys := map_result f xs in
      Ok (y :: ys)
  end.

(** ** Python values as [json.loads] builds them *)

(** A dictionary keeps its keys in insertion order; it is an association
    list read from the front.  Numbers are integers, as every numeric field
    of the upstream schema is (identifiers, counts, timestamps). *)
Inductive value : Type :=
  | PNone
  | PBool (b : bool)
  | PInt (n : Z)
  | PStr (s : string)
  | PList (l : list value)
  | PDict (d : list (string * value)).

Fixpoint dict_lookup (k : string) (d : list (string * value)) : option value :=
  match d with
  | [] => None
  | (k', v) :: d' => if String.eqb k k' then Some v else dict_lookup k d'
  end.

(** [v.get(k, default)]: only a dict has the method. *)
Definition py_get (v : value) (k : string) (default : value) : result value :=
  match v with
  | PDict d =>
      match dict_lookup k d with
      | Some x => Ok x
      | None => Ok default
      end
  | _ => Raise AttributeError
  end.

(** [v[k]] with a string key. *)
Definition py_getitem (v : value) (k : string) : result value :=
  match v with
  | PDict d =>
      match dict_lookup k d with
      | Some x => Ok x
      | None => Raise KeyError
      end
  | _ => Raise TypeError
  end.

(** [v[0]].  The keys of a dict that comes from JSON are strings, so the key
    [0] is never present. *)
Definition py_getitem0 (v : value) : result value :=
  match v with
  | PList [] => Raise IndexError
  | PList (x :: _) => Ok x
  | PStr EmptyString => Raise IndexError
  | PStr (String c _) => Ok (PStr (String c EmptyString))
  | PDict _ => Raise KeyError
  | _ => Raise TypeError
  end.

Fixpoint chars_of (s : string) : list value :=
  match s with
  | EmptyString => []
  | String c s' => PStr (String c EmptyString) :: chars_of s'
  end.

(** [for x in v]: a list yields its items, a dict its keys, a string its
    characters; nothing else is iterable. *)
Definition py_iter (v : value) : result (list value) :=
  match v with
  | PList l => Ok l
  | PDict d => Ok (map (fun kv => PStr (fst kv)) d)
  | PStr s => Ok (chars_of s)
  | _ => Raise TypeError
  end.

(** Truth value of [if v:]. *)
Definition py_truthy (v : value) : bool :=
  match v with
  | PNone => false
  | PBool b => b
  | PInt n => negb (n =? 0)
  | PStr s => negb (String.eqb s EmptyString)
  | PList l => match l with [] => false | _ => true end
  | PDict d => match d with [] => false | _ => true end
  end.

Definition isinstance_str (v : value) : bool :=
  match v with PStr _ => true | _ => false end.

(** ** [datetime]: the part of the standard library the program uses *)

Module Datetime.

(** A naive [datetime.datetime].  Python orders two of them field by field,
    from the year down to the microsecond. *)
Record datetime : Type := mk_datetime {
  year : Z;
  month : Z;
  day : Z;
  hour : Z;
  minute : Z;
  second : Z;
  microsecond : Z
}.

Definition fields (d : datetime) : list Z :=
  [year d; month d; day d; hour d; minute d; second d; microsecond d].

Fixpoint lex_ltb (a b : list Z) : bool :=
  match a, b with
  | x :: a', y :: b' => (x <? y) || ((x =? y) && lex_ltb a' b')
  | [], _ :: _ => true
  | _, [] => false
  end.

(** [a < b] on datetimes. *)
Definition ltb (a b : datetime) : bool := lex_ltb (fields a) (fields b).

(** [min(l)]: the first of the smallest items; [ValueError] on an empty
    sequence. *)
Fixpoint min_from (best : datetime) (l : list datetime) : datetime :=
  match l with
  | [] => best
  | d :: l' => min_from (if ltb d best then d else best) l'
  end.

Definition py_min (l : list datetime) : result datetime :=
  match l with
  | [] => Raise ValueError
  | d :: l' => Ok (min_from d l')
  end.

(** *** The proleptic Gregorian calendar, as in [_pydatetime.py] *)

Definition is_leap (y : Z) : bool :=
  (y mod 4 =? 0) && (negb (y mod 100 =? 0) || (y mod 400 =? 0)).

Definition days_before_year (y : Z) : Z :=
  let y1 := y - 1 in
  y1 * 365 + y1 / 4 - y1 / 100 + y1 / 400.

(** [_DAYS_BEFORE_MONTH]. *)
Definition DAYS_BEFORE_MONTH (m : Z) : Z :=
  match m with
  | 1 => 0 | 2 => 31 | 3 => 59 | 4 => 90 | 5 => 120 | 6 => 151
  | 7 => 181 | 8 => 212 | 9 => 243 | 10 => 273 | 11 => 304 | 12 => 334
  | _ => -1
  end.

Definition DAYS_IN_MONTH (m : Z) : Z :=
  match m with
  | 2 => 28
  | 4 | 6 | 9 | 11 => 30
  | 1 | 3 | 5 | 7 | 8 | 10 | 12 => 31
  | _ => -1
  end.

Definition bool_Z (b : bool) : Z := if b then 1 else 0.

(** [_days_in_month]: the table, with the leap day of February. *)
Definition month_length (leapyear : bool) (m : Z) : Z :=
  DAYS_IN_MONTH m + bool_Z ((m =? 2) && leapyear).

Definition days_in_month (y m : Z) : Z := month_length (is_leap y) m.

Definition days_before_month (y m : Z) : Z :=
  DAYS_BEFORE_MONTH m + bool_Z ((2 <? m) && is_leap y).

(** [_ymd2ord]: ordinal of a date, 0001-01-01 being day 1. *)
Definition ymd2ord (y m d : Z) : Z :=
  days_before_year y + days_before_month y m + d.

(** Month and day from the zero-based day of the year [n]. *)
Definition month_day (leapyear : bool) (n : Z) : Z * Z :=
  let month := Z.shiftr (n + 50) 5 in
  let preceding := DAYS_BEFORE_MONTH month + bool_Z ((2 <? month) && leapyear) in
  if n <? preceding then
    let month' := month - 1 in
    let preceding' :=
      preceding - (DAYS_IN_MONTH month' + bool_Z ((month' =? 2) && leapyear)) in
    (month', n - preceding' + 1)
  else (month, n - preceding + 1).

(** [_ord2ymd]: the inverse, by 400-, 100-, 4- and 1-year cycles. *)
Definition ord2ymd (ordinal : Z) : Z * Z * Z :=
  let n := ordinal - 1 in
  let n400 := n / 146097 in
  let n := n mod 146097 in
  let n100 := n / 36524 in
  let n := n mod 36524 in
  let n4 := n / 1461 in
  let n := n mod 1461 in
  let n1 := n / 365 in
  let n := n mod 365 in
  let year := n400 * 400 + 1 + n100 * 100 + n4 * 4 + n1 in
  if (n1 =? 4) || (n100 =? 4) then (year - 1, 12, 31)
  else
    let leapyear := (n1 =? 3) && (negb (n4 =? 24) || (n100 =? 3)) in
    let '(m, d) := month_day leapyear n in
    (year, m, d).

(** Ordinal of 1970-01-01 and of 9999-12-31 ([_MAXORDINAL]). *)
Definition EPOCH_ORDINAL : Z := 719163.
Definition MAXORDINAL : Z := 3652059.

(** [datetime.utcfromtimestamp(t)] for an integer [t]: a year outside
    1..9999 is refused ([ValueError]; [OverflowError] once [t] leaves the
    platform's [time_t], an [Exception] as well). *)
Definition utcfromtimestamp (t : Z) : result datetime :=
  let days := t / 86400 in
  let secs := t mod 86400 in
  let ordinal := days + EPOCH_ORDINAL in
  if (1 <=? ordinal) && (ordinal <=? MAXORDINAL) then
    let '(y, m, d) := ord2ymd ordinal in
    Ok (mk_datetime y m d (secs / 3600) (secs mod 3600 / 60) (secs mod 60) 0)
  else Raise ValueError.

(** The point in time a naive datetime denotes when read as UTC, in whole
    seconds since the epoch ([calendar.timegm] of its time tuple). *)
Definition timegm (d : datetime) : Z :=
  (ymd2ord (year d) (month d) (day d) - EPOCH_ORDINAL) * 86400
  + hour d * 3600 + minute d * 60 + second d.

(** What the [datetime] constructor accepts. *)
Definition valid (d : datetime) : bool :=
  (1 <=? year d) && (year d <=? 9999)
  && (1 <=? month d) && (month d <=? 12)
  && (1 <=? day d) && (day d <=? days_in_month (year d) (month d))
  && (0 <=? hour d) && (hour d <? 24)
  && (0 <=? minute d) && (minute d <? 60)
  && (0 <=? second d) && (second d <? 60)
  && (0 <=? microsecond d) && (microsecond d <? 1000000).

(** *** [strftime] and [strptime] with [DATETIME_FORMAT] *)

Definition digit (n : Z) : ascii := ascii_of_nat (Z.to_nat (48 + n mod 10)).

Definition digit_val (c : ascii) : option Z :=
  let n := Z.of_nat (nat_of_ascii c) in
  if (48 <=? n) && (n <=? 57) then Some (n - 48) else None.

(** Zero-padded decimal fields: [%m], [%d], [%H], [%M], [%S] have two
    digits and [%Y] four. *)
Definition pad2 (n : Z) (rest : string) : string :=
  String (digit (n / 10)) (String (digit n) rest).

Definition pad4 (n : Z) (rest : string) : string :=
  String (digit (n / 1000)) (String (digit (n / 100)) (pad2 n rest)).

Definition DASH : ascii := ascii_of_nat 45.
Definition SPACE : ascii := ascii_of_nat 32.
Definition COLON : ascii := ascii_of_nat 58.

(** [d.strftime("%Y-%m-%d %H:%M:%S")]. *)
Definition strftime (d : datetime) : string :=
  pad4 (year d) (String DASH
  (pad2 (month d) (String DASH
  (pad2 (day d) (String SPACE
  (pad2 (hour d) (String COLON
  (pad2 (minute d) (String COLON
  (pad2 (second d) EmptyString)))))))))).

Definition take2 (s : string) : option (Z * string) :=
  match s with
  | String a (String b rest) =>
      match digit_val a, digit_val b with
      | Some x, Some y => Some (10 * x + y, rest)
      | _, _ => None
      end
  | _ => None
  end.

Definition take4 (s : string) : option (Z * string) :=
  match take2 s with
  | Some (hi, s') =>
      match take2 s' with
      | Some (lo, rest) => Some (100 * hi + lo, rest)
      | None => None
      end
  | None => None
  end.

Definition expect (c : ascii) (s : string) : option string :=
  match s with
  | String c' rest => if Ascii.eqb c c' then Some rest else None
  | EmptyString => None
  end.

Definition parse_fields (s : string) : option datetime :=
  match take4 s with None => None | Some (y, s) =>
  match expect DASH s with None => None | Some s =>
  match take2 s with None => None | Some (mo, s) =>
  match expect DASH s with None => None | Some s =>
  match take2 s with None => None | Some (d, s) =>
  match expect SPACE s with None => None | Some s =>
  match take2 s with None => None | Some (h, s) =>
  match expect COLON s with None => None | Some s =>
  match take2 s with None => None | Some (mi, s) =>
  match expect COLON s with None => None | Some s =>
  match take2 s with None => None | Some (sec, s) =>
  match s with
  | EmptyString => Some (mk_datetime y mo d h mi sec 0)
  | _ => None
  end end end end end end end end end end end end.

(** [datetime.strptime(s, "%Y-%m-%d %H:%M:%S")] on the strings the program
    hands it, which are those [convert_timestamp_to_string] returns: the
    zero-padded text of a date, or the empty string.  A text that does not
    match the format, or names no valid date, is a [ValueError].  (Python
    also accepts a one-digit month, day, hour, minute or second; [strftime]
    never writes one.) *)
Definition strptime (s : string) : result datetime :=
  match parse_fields s with
  | Some d => if valid d then Ok d else Raise ValueError
  | None => Raise ValueError
  end.

End Datetime.

Import Datetime.

Local Open Scope string_scope.

(** ** The record extractor *)

(** [convert_timestamp_to_string].  The annotation says [Optional[int]]; the
    argument is whatever [node.get] found.  [bool] is a subclass of [int];
    a string, list or dict is a [TypeError] in [utcfromtimestamp]. *)
Definition convert_timestamp_to_string (ts : value) : result string :=
  match ts with
  | PNone => Ok EmptyString
  | PInt n => let* d := utcfromtimestamp n in Ok (strftime d)
  | PBool b => let* d := utcfromtimestamp (bool_Z b) in Ok (strftime d)
  | PStr _ | PList _ | PDict _ => Raise TypeError
  end.

(** A post: the dict literal [get_post_from_node] returns, keys in the order
    they are written. *)
Definition post : Type := list (string * value).

Definition POST_KEYS : list string :=
  ["id"; "owner_id"; "created_time"; "typename"; "comment_count";
   "like_count"; "video_view_count"; "shortcode"; "caption"].

Definition empty_dict : value := PDict [].

Definition get_post_from_node (node : value) : result post :=
  let* post_id := py_get node "id" PNone in
  let* owner := py_get node "owner" empty_dict in
  let* owner_id := py_get owner "id" PNone in
  let* ts := py_get node "taken_at_timestamp" PNone in
  let* created_time := convert_timestamp_to_string ts in
  let* typename := py_get node "__typename" PNone in
  let* comments := py_get node "edge_media_to_comment" empty_dict in
  let* comment_count := py_get comments "count" PNone in
  let* likes := py_get node "edge_liked_by" empty_dict in
  let* like_count := py_get likes "count" PNone in
  let* video_view_count := py_get node "video_view_count" PNone in
  let* shortcode := py_get node "shortcode" PNone in
  let* captions := py_get node "edge_media_to_caption" empty_dict in
  let* edges := py_get captions "edges" (PList [empty_dict]) in
  let* first := py_getitem0 edges in
  let* caption_node := py_get first "node" empty_dict in
  let* caption := py_get caption_node "text" PNone in
  Ok [("id", post_id);
      ("owner_id", owner_id);
      ("created_time", PStr created_time);
      ("typename", typename);
      ("comment_count", comment_count);
      ("like_count", like_count);
      ("video_view_count", video_view_count);
      ("shortcode", shortcode);
      ("caption", caption)].

Definition keys (p : post) : list string := map fst p.
Definition values (p : post) : list value := map snd p.

(** ** The fetch loop *)

(** What [requests.get(url)] followed by [res.json()] can give: the request
    raises, the body is not JSON, or the body parses to a value. *)
Inductive response : Type :=
  | RequestFails
  | BodyNotJson
  | Body (data : value).

(** The effects of the loop on the outside world, in the order they happen:
    [time.sleep(wait)] and the GET of the endpoint of [tag], with the
    [max_id] parameter when a cursor is appended.  (The [print] calls are
    left out.) *)
Inductive event : Type :=
  | Sleep (seconds : Z)
  | Get (tag : string) (max_id : option value).

Definition is_get (e : event) : bool :=
  match e with Get _ _ => true | Sleep _ => false end.

Definition fetch_count (io : list event) : nat :=
  length (filter (fun e => is_get e = true) io).

(** The local variables of [get_posts] that live across iterations, and the
    effects performed so far. *)
Record state : Type := mk_state {
  all_posts : list post;
  end_cursor : value;
  earliest_datetime_so_far : datetime;
  io : list event
}.

Fixpoint navigate (v : value) (path : list string) : result value :=
  match path with
  | [] => Ok v
  | k :: path' => let* v' := py_getitem v k in navigate v' path'
  end.

Definition MEDIA_PATH : list string :=
  ["graphql"; "hashtag"; "edge_hashtag_to_media"].

Definition post_of_edge (edge : value) : result post :=
  let* node := py_get edge "node" PNone in
  get_post_from_node node.

(** The statements under [try], after [requests.get]: the new cursor is
    assigned first, so it is kept even when a later statement raises. *)
Definition try_block (r : response) (cursor : value)
  : value * result (list post) :=
  match r with
  | RequestFails => (cursor, Raise RequestException)
  | BodyNotJson => (cursor, Raise JSONDecodeError)
  | Body data =>
      match navigate data (MEDIA_PATH ++ ["page_info"; "end_cursor"]) with
      | Raise e => (cursor, Raise e)
      | Ok cursor' =>
          (cursor',
           let* edges := navigate data (MEDIA_PATH ++ ["edges"]) in
           let* items := py_iter edges in
           map_result post_of_edge items)
      end
  end.

(** The list comprehension under [min]: every post whose [created_time] is a
    [str] is parsed, in order. *)
Fixpoint created_times (posts : list post) : result (list datetime) :=
  match posts with
  | [] => Ok []
  | p :: posts' =>
      let* ct := py_getitem (PDict p) "created_time" in
      match ct with
      | PStr s =>
          let* d := strptime s in
          let* ds := created_times posts' in
          Ok (d :: ds)
      | _ => created_times posts'
      end
  end.

(** How one pass through the body of the [while] ends. *)
Inductive step : Type :=
  | Continue (st : state)
  | Break (st : state)
  | Uncaught (e : exn) (st : state).

(** What a call returns: its value or the exception that escapes it, and the
    effects it had. *)
Record outcome : Type := mk_outcome {
  returned : result (list post);
  effects : list event
}.

Section FetchLoop.

Variable tag : string.
Variable min_datetime : datetime.
Variable wait : Z.
(** [now] is what [datetime.datetime.now()] returns; [server k] is the
    answer to the GET that follows [k] earlier ones. *)
Variable now : datetime.
Variable server : nat -> response.

Definition loop_body (st : state) : step :=
  let paged := py_truthy (end_cursor st) in
  let io1 := if paged then (io st ++ [Sleep wait])%list else io st in
  let max_id := if paged then Some (end_cursor st) else None in
  let io2 := (io1 ++ [Get tag max_id])%list in
  let '(cursor, fetched) :=
    try_block (server (fetch_count (io st))) (end_cursor st) in
  match fetched with
  | Raise _ =>
      Break (mk_state (all_posts st) cursor (earliest_datetime_so_far st) io2)
  | Ok posts =>
      if (length posts =? 0)%nat then
        Break (mk_state (all_posts st) cursor (earliest_datetime_so_far st) io2)
      else
        let all := (all_posts st ++ posts)%list in
        match (let* ds := created_times posts in py_min ds) with
        | Raise e =>
            Uncaught e (mk_state all cursor (earliest_datetime_so_far st) io2)
        | Ok earliest => Continue (mk_state all cursor earliest io2)
        end
  end.

Definition loop_test (st : state) : bool :=
  ltb min_datetime (earliest_datetime_so_far st).

(** The [while] loop: the test is evaluated first, and every pass through
    the body uses one unit of fuel.  [None] means the fuel ran out. *)
Fixpoint while_loop (fuel : nat) (st : state) : option outcome :=
  if loop_test st then
    match fuel with
    | O => None
    | S fuel' =>
        match loop_body st with
        | Continue st' => while_loop fuel' st'
        | Break st' => Some (mk_outcome (Ok (all_posts st')) (io st'))
        | Uncaught e st' => Some (mk_outcome (Raise e) (io st'))
        end
    end
  else Some (mk_outcome (Ok (all_posts st)) (io st)).

Definition initial_state : state := mk_state [] (PStr EmptyString) now [].

Definition get_posts (fuel : nat) : option outcome :=
  while_loop fuel initial_state.

(** The state at the top of the loop after [k] passes through the body
    that all went on to the next one; [None] when the loop is over before. *)
Fixpoint iterate (k : nat) (st : state) : option state :=
  match k with
  | O => Some st
  | S k' =>
      if loop_test st then
        match loop_body st with
        | Continue st' => iterate k' st'
        | Break _ | Uncaught _ _ => None
        end
      else None
  end.

Definition state_after (k : nat) : option state := iterate k initial_state.

End FetchLoop.

(** ** The exporter *)

Definition PIPE : ascii := ascii_of_nat 124.
Definition DQUOTE : ascii := ascii_of_nat 34.
Definition CR : ascii := ascii_of_nat 13.
Definition LF : ascii := ascii_of_nat 10.

(** The default line terminator of [csv.writer]. *)
Definition CRLF : string := String CR (String LF EmptyString).

(** [csv.writer(f, delimiter="|")] with the defaults of the [excel] dialect
    ([QUOTE_MINIMAL], [doublequote], the double quote as quote character): a
    field is quoted when it holds the delimiter, the quote character or a
    character of a line break, and quote characters inside it are doubled. *)
Definition is_special (c : ascii) : bool :=
  Ascii.eqb c PIPE || Ascii.eqb c DQUOTE || Ascii.eqb c CR || Ascii.eqb c LF.

Fixpoint needs_quote (s : string) : bool :=
  match s with
  | EmptyString => false
  | String c s' => is_special c || needs_quote s'
  end.

Fixpoint double_quotes (s : string) : string :=
  match s with
  | EmptyString => EmptyString
  | String c s' =>
      if Ascii.eqb c DQUOTE then String DQUOTE (String DQUOTE (double_quotes s'))
      else String c (double_quotes s')
  end.

Definition quoted (s : string) : string :=
  String DQUOTE (double_quotes s ++ String DQUOTE EmptyString).

Definition csv_field (s : string) : string :=
  if needs_quote s then quoted s else s.

Fixpoint join_fields (l : list string) : string :=
  match l with
  | [] => EmptyString
  | [f] => f
  | f :: l' => f ++ String PIPE (join_fields l')
  end.

(** [writer.writerow(row)] appends the record and the line terminator; a
    record that would be empty text (a single empty field) is written as a
    pair of quotes. *)
Definition writerow (row : list string) : string :=
  match row with
  | [EmptyString] => quoted EmptyString ++ CRLF
  | _ => join_fields (map csv_field row) ++ CRLF
  end.

(** The text of a file after a sequence of writes. *)
Definition written (chunks : list string) : string :=
  fold_right String.append EmptyString chunks.

(** The file system: the text of every file that exists, by path. *)
Abbreviation filesystem := (gmap string string).

Section Exporter.

(** [str(v)] for a list or a dict, which the writer applies to a field
    that is neither [None] nor a string; its text plays no part here. *)
Variable str_of_container : value -> string.

(** The text the writer gives a field: nothing for [None], the string
    itself, [str(v)] otherwise. *)
Definition field_text (v : value) : string :=
  match v with
  | PNone => EmptyString
  | PStr s => s
  | PInt n => pretty n
  | PBool true => "True"
  | PBool false => "False"
  | PList _ | PDict _ => str_of_container v
  end.

Definition rows_text (posts : list post) : string :=
  written (map (fun m => writerow (map field_text (values m))) posts).

(** [export_posts]: [open(output_path, "w")] creates or truncates the
    file, which then holds what the writer wrote. *)
Definition export_posts (posts : list post) (output_path : string)
    (fs : filesystem) : result filesystem :=
  if (0 <? length posts)%nat then
    let* first :=
      match posts with
      | p :: _ => Ok p
      | [] => Raise IndexError
      end in
    let column_names := keys first in
    Ok (<[output_path := writerow column_names ++ rows_text posts]> fs)
  else Ok fs.

(** ** [main], after the arguments are parsed *)

(** How a run of the program ends: normally or with the exception that
    escapes [main], with the effects on the network and the files. *)
Record run : Type := mk_run {
  exit : result unit;
  requests : list event;
  files : filesystem
}.

Definition main (tag : string) (min_date : datetime) (output : string)
    (wait : Z) (now : datetime) (server : nat -> response)
    (fs : filesystem) (fuel : nat) : option run :=
  match get_posts tag min_date wait now server fuel with
  | None => None
  | Some out =>
      match returned out with
      | Raise e => Some (mk_run (Raise e) (effects out) fs)
      | Ok posts =>
          match export_posts posts output fs with
          | Raise e => Some (mk_run (Raise e) (effects out) fs)
          | Ok fs' => Some (mk_run (Ok tt) (effects out) fs')
          end
      end
  end.

End Exporter.

(** ** Notions the properties are stated with *)

Local Open Scope Z_scope.

(** *** Calendar *)

(** The month and day [month_day] gives for day [n] of a year are a date of
    that year, and the one that many days after January 1st. *)
Definition month_day_ok (leapyear : bool) (n : Z) : bool :=
  let '(m, d) := month_day leapyear n in
  (1 <=? m) && (m <=? 12) && (1 <=? d) && (d <=? month_length leapyear m)
  && (DAYS_BEFORE_MONTH m + bool_Z ((2 <? m) && leapyear) + d =? n + 1).

(** The timestamps [utcfromtimestamp] accepts: 0001-01-01 00:00:00 to
    9999-12-31 23:59:59. *)
Definition MIN_TIMESTAMP : Z := -62135596800.
Definition MAX_TIMESTAMP : Z := 253402300799.


(** *** Paths into a raw node *)

(** One step into a nested value: the value under a key, or the first item
    of a list. *)
Inductive path_step : Type :=
  | Key (k : string)
  | First.

(** The value at the end of a path, if every step of it is there. *)
Fixpoint find_path (v : value) (path : list path_step) : option value :=
  match path with
  | [] => Some v
  | Key k :: path' =>
      match v with
      | PDict d =>
          match dict_lookup k d with
          | Some x => find_path x path'
          | None => None
          end
      | _ => None
      end
  | First :: path' =>
      match v with
      | PList (x :: _) => find_path x path'
      | _ => None
      end
  end.

Definition or_null (o : option value) : value :=
  match o with Some v => v | None => PNone end.

(** Where each key of a post comes from, [created_time] apart. *)
Definition FIELD_PATHS : list (string * list path_step) :=
  [("id", [Key "id"]);
   ("owner_id", [Key "owner"; Key "id"]);
   ("typename", [Key "__typename"]);
   ("comment_count", [Key "edge_media_to_comment"; Key "count"]);
   ("like_count", [Key "edge_liked_by"; Key "count"]);
   ("video_view_count", [Key "video_view_count"]);
   ("shortcode", [Key "shortcode"]);
   ("caption",
    [Key "edge_media_to_caption"; Key "edges"; First; Key "node"; Key "text"])].

Definition absent_or_dict (o : option value) : bool :=
  match o with
  | None | Some (PDict _) => true
  | Some _ => false
  end.

Definition timestamp_ok (o : option value) : bool :=
  match o with
  | None | Some PNone => true
  | Some (PInt t) => (MIN_TIMESTAMP <=? t) && (t <=? MAX_TIMESTAMP)
  | Some _ => false
  end.

Definition caption_ok (o : option value) : bool :=
  match o with
  | None => true
  | Some (PDict c) =>
      match dict_lookup "edges" c with
      | None => true
      | Some (PList (PDict e :: _)) => absent_or_dict (dict_lookup "node" e)
      | Some _ => false
      end
  | Some _ => false
  end.

(** A raw node with any of its expected fields missing: what is there has
    the shape the upstream gives it (the intermediate structures are
    mappings, a caption list has a first entry, the timestamp is a number
    of seconds that names a date), and anything may be absent. *)
Definition fields_missing_or_shaped (d : list (string * value)) : bool :=
  absent_or_dict (dict_lookup "owner" d)
  && timestamp_ok (dict_lookup "taken_at_timestamp" d)
  && absent_or_dict (dict_lookup "edge_media_to_comment" d)
  && absent_or_dict (dict_lookup "edge_liked_by" d)
  && caption_ok (dict_lookup "edge_media_to_caption" d).

(** *** Pages *)

(** The posts of a page, when the statements under [try] all succeed. *)
Definition page_result (r : response) : result (list post) :=
  snd (try_block r PNone).

Definition page_posts (r : response) : list post :=
  match page_result r with
  | Ok posts => posts
  | Raise _ => []
  end.

(** The posts of the first [n] pages, in page-arrival order. *)
Definition posts_of_pages (server : nat -> response) (n : nat) : list post :=
  flat_map (fun k => page_posts (server k)) (seq 0 n).



Definition created_time_empty (p : post) : bool :=
  match dict_lookup "created_time" p with
  | Some (PStr EmptyString) => true
  | _ => false
  end.

(** The page is empty, or holds only records whose [created_time] is the
    empty string. *)
Definition ends_data (r : response) : bool :=
  match page_result r with
  | Ok posts => forallb created_time_empty posts
  | Raise _ => false
  end.

(** The earliest [created_time] of a list of posts: what the loop computes
    of the batch it has just fetched. *)
Definition earliest_of (posts : list post) : result datetime :=
  let* ds := created_times posts in py_min ds.

(** *** The text of the exported file *)









(** ** Upstream answers used as examples *)

Definition edge_of (node : value) : value := PDict [("node", node)].

(** A response body with the shape of section "graphql" of the endpoint. *)
Definition page_of (cursor : string) (nodes : list value) : value :=
  PDict [("graphql",
    PDict [("hashtag",
      PDict [("edge_hashtag_to_media",
        PDict [("page_info", PDict [("end_cursor", PStr cursor)]);
               ("edges", PList (map edge_of nodes))])])])].

(** The upstream that answers with the given pages in turn, and with an
    empty page from then on. *)
Definition serve (pages : list response) (k : nat) : response :=
  nth k pages (Body (page_of EmptyString [])).

Definition node_at (id : string) (ts : Z) : value :=
  PDict [("id", PStr id); ("taken_at_timestamp", PInt ts)].

(** A post without a caption, as the upstream sends it. *)
Definition node_no_caption : value :=
  PDict [("id", PStr "1");
         ("taken_at_timestamp", PInt 1609459200);
         ("edge_media_to_caption", PDict [("edges", PList [])])].

(** A post whose timestamp is missing. *)
Definition node_no_timestamp : value := PDict [("id", PStr "7")].

(** A post whose caption has two lines. *)
Definition node_two_line_caption : value :=
  PDict [("id", PStr "1");
         ("taken_at_timestamp", PInt 1609459200);
         ("edge_media_to_caption",
          PDict [("edges",
            PList [edge_of (PDict [("text",
              PStr (String "a" (String LF (String "b" EmptyString))))])])])].

(** The record of that post. *)
Definition post_two_line_caption : post :=
  [("id", PStr "1");
   ("owner_id", PNone);
   ("created_time", PStr "2021-01-01 00:00:00");
   ("typename", PNone);
   ("comment_count", PNone);
   ("like_count", PNone);
   ("video_view_count", PNone);
   ("shortcode", PNone);
   ("caption", PStr (String "a" (String LF (String "b" EmptyString))))].

(** The example node of the specification. *)
Definition example_fields : list (string * value) :=
  [("id", PStr "1");
   ("owner", PDict [("id", PStr "9")]);
   ("taken_at_timestamp", PInt 1609459200);
   ("__typename", PStr "GraphImage");
   ("shortcode", PStr "abc")].

Definition node_example : value := PDict example_fields.

(** The record the specification gives for it. *)
Definition post_example : post :=
  [("id", PStr "1");
   ("owner_id", PStr "9");
   ("created_time", PStr "2021-01-01 00:00:00");
   ("typename", PStr "GraphImage");
   ("comment_count", PNone);
   ("like_count", PNone);
   ("video_view_count", PNone);
   ("shortcode", PStr "abc");
   ("caption", PNone)].

Definition midnight (y m d : Z) : datetime := mk_datetime y m d 0 0 0 0.

(** 2021-06-01 12:00:00.5, a reading of the clock. *)
Definition noon_2021 : datetime := mk_datetime 2021 6 1 12 0 0 500000.

(** Two pages whose posts are not in order of time: 2021-01-01 on the
    first, 2021-01-02 on the second. *)
Definition two_pages : nat -> response :=
  serve [Body (page_of "c1" [node_at "1" 1609459200]);
         Body (page_of "c2" [node_at "2" 1609545600])].

(** A good first page, then a page with a post without timestamp. *)
Definition then_no_timestamp : nat -> response :=
  serve [Body (page_of "c1" [node_at "1" 1609459200]);
         Body (page_of "c2" [node_at "2" 1609372800; node_no_timestamp])].



(** What is claimed of the loop: after every batch, the earliest timestamp
    it holds is the earliest of all the posts accumulated so far. *)
Definition earliest_is_global_minimum (tag : string) (min_datetime : datetime)
    (wait : Z) (now : datetime) (server : nat -> response) : Prop :=
  forall (k : nat) (st : state),
    state_after tag min_datetime wait now server (S k) = Some st ->
    earliest_of (all_posts st) = Ok (earliest_datetime_so_far st).

(** ** Notions for further properties *)

(** The keys [get_post_from_node] reads in a node. *)
Definition EXPECTED_KEYS : list string :=
  ["id"; "owner"; "taken_at_timestamp"; "__typename";
   "edge_media_to_comment"; "edge_liked_by"; "video_view_count";
   "shortcode"; "edge_media_to_caption"].

Definition is_dict (v : value) : bool :=
  match v with PDict _ => true | _ => false end.

(** The [created_time] of the post is a string, empty or one that
    [strptime] reads. *)
Definition created_time_readable (p : post) : Prop :=
  exists s, dict_lookup "created_time" p = Some (PStr s)
    /\ (s = EmptyString \/ exists d, strptime s = Ok d).

(** The effects of one pass through the body: a request without cursor
    when the cursor is empty, and otherwise the wait and a request with the
    cursor. *)
Definition request_block (wait : Z) (tag : string) (cursor : value)
  : list event :=
  if py_truthy cursor then [Sleep wait; Get tag (Some cursor)]
  else [Get tag None].

(** A sequence of effects made of such blocks: every request with a cursor
    comes right after a wait of [wait] seconds, and there is no other
    wait. *)
Fixpoint paced (wait : Z) (tag : string) (io : list event) : bool :=
  match io with
  | [] => true
  | Get t None :: io' => String.eqb t tag && paced wait tag io'
  | Sleep w :: Get t (Some cursor) :: io' =>
      (w =? wait) && String.eqb t tag && py_truthy cursor
      && paced wait tag io'
  | _ => false
  end.

(** What holds of a state at the top of the loop, whatever the upstream
    answers: the requests are paced and the first one carries no cursor,
    the result set is made of the pages fetched so far, and every request
    has brought a record. *)
Definition loop_invariant (tag : string) (wait : Z) (server : nat -> response)
    (st : state) : Prop :=
  paced wait tag (io st) = true
  /\ match io st with
     | [] => end_cursor st = PStr EmptyString
     | first :: _ => first = Get tag None
     end
  /\ all_posts st = posts_of_pages server (fetch_count (io st))
  /\ (fetch_count (io st) <= length (all_posts st))%nat.



(** * Properties *)

(** ** The calendar and the date format *)

Module DatetimeFacts.

(** Every day of a common year and of a leap year is checked. *)
Lemma month_day_table (leapyear : bool) :
  forallb (fun k => month_day_ok leapyear (Z.of_nat k))
    (seq 0 (365 + (if leapyear then 1 else 0))) = true.
Proof. destruct leapyear; vm_compute; reflexivity. Qed.

Lemma month_day_spec (leapyear : bool) (n : Z) :
  0 <= n < 365 + bool_Z leapyear ->
  month_day_ok leapyear n = true.
Proof.
  intros Hn.
  pose proof (month_day_table leapyear) as Ht.
  rewrite forallb_forall in Ht.
  rewrite <- (Z2Nat.id n) by lia.
  apply Ht. apply in_seq. destruct leapyear; simpl in *; lia.
Qed.

(** The decomposition of a day count into 400-, 100-, 4- and 1-year
    cycles, with the two places where a cycle has one day more. *)
Lemma cycles (a : Z) :
  0 <= a ->
  let n400 := a / 146097 in
  let r1 := a mod 146097 in
  let n100 := r1 / 36524 in
  let r2 := r1 mod 36524 in
  let n4 := r2 / 1461 in
  let r3 := r2 mod 1461 in
  let n1 := r3 / 365 in
  let r := r3 mod 365 in
  a = 146097 * n400 + 36524 * n100 + 1461 * n4 + 365 * n1 + r
  /\ 0 <= n400 /\ 0 <= n100 <= 4 /\ 0 <= n4 <= 24 /\ 0 <= n1 <= 4
  /\ 0 <= r < 365
  /\ (n100 = 4 -> n4 = 0 /\ n1 = 0 /\ r = 0)
  /\ (n1 = 4 -> r = 0 /\ n4 <= 23).
Proof.
  intros Ha. cbv zeta.
  Z.div_mod_to_equations. lia.
Qed.

Lemma days_before_year_cycles (n400 n100 n4 n1 : Z) :
  0 <= n400 -> 0 <= n100 <= 3 -> 0 <= n4 <= 24 -> 0 <= n1 <= 3 ->
  days_before_year (n400 * 400 + 1 + n100 * 100 + n4 * 4 + n1)
  = 146097 * n400 + 36524 * n100 + 1461 * n4 + 365 * n1.
Proof.
  intros. unfold days_before_year. cbv zeta.
  Z.div_mod_to_equations. lia.
Qed.

Lemma is_leap_cycles (n400 n100 n4 n1 : Z) :
  0 <= n400 -> 0 <= n100 <= 3 -> 0 <= n4 <= 24 -> 0 <= n1 <= 3 ->
  is_leap (n400 * 400 + 1 + n100 * 100 + n4 * 4 + n1)
  = (n1 =? 3) && (negb (n4 =? 24) || (n100 =? 3)).
Proof.
  intros. unfold is_leap.
  repeat match goal with
  | |- context [?a =? ?b] => destruct (Z.eqb_spec a b)
  end; simpl; try reflexivity; exfalso; Z.div_mod_to_equations; lia.
Qed.


(** [_ord2ymd] names a date of the calendar, and [_ymd2ord] inverts it. *)
Lemma ord2ymd_spec (n : Z) :
  1 <= n ->
  let '(y, m, d) := ord2ymd n in
  1 <= m <= 12 /\ 1 <= d <= days_in_month y m /\ ymd2ord y m d = n
  /\ 1 <= y /\ (n <= MAXORDINAL -> y <= 9999).
Proof.
  intros Hn. unfold ord2ymd. cbv zeta.
  generalize (cycles (n - 1) ltac:(lia)). cbv zeta.
  set (n400 := (n - 1) / 146097).
  set (r1 := (n - 1) mod 146097).
  set (n100 := r1 / 36524).
  set (r2 := r1 mod 36524).
  set (n4 := r2 / 1461).
  set (r3 := r2 mod 1461).
  set (n1 := r3 / 365).
  set (r := r3 mod 365).
  intros (Ha & H400 & H100 & H4 & H1 & Hr & Hc & Hy).
  destruct ((n1 =? 4) || (n100 =? 4)) eqn:Hend.
  - (* the last day of a 4- or 400-year cycle *)
    assert (Hl : is_leap (n400 * 400 + 1 + n100 * 100 + n4 * 4 + n1 - 1) = true).
    { unfold is_leap.
      repeat match goal with
      | |- context [?a =? ?b] => destruct (Z.eqb_spec a b)
      end; simpl; try reflexivity; exfalso;
      apply orb_true_iff in Hend; rewrite !Z.eqb_eq in Hend;
      Z.div_mod_to_equations; lia. }
    unfold days_in_month, ymd2ord, days_before_month, month_length.
    rewrite Hl. simpl.
    apply orb_true_iff in Hend; rewrite !Z.eqb_eq in Hend.
    unfold days_before_year, MAXORDINAL. cbv zeta.
    repeat split; try lia; Z.div_mod_to_equations; lia.
  - apply orb_false_iff in Hend. rewrite !Z.eqb_neq in Hend.
    set (leapyear := (n1 =? 3) && (negb (n4 =? 24) || (n100 =? 3))).
    pose proof (month_day_spec leapyear r) as Hmd.
    unfold month_day_ok in Hmd.
    destruct (month_day leapyear r) as [m d].
    assert (Hrange : 0 <= r < 365 + bool_Z leapyear).
    { destruct leapyear; simpl; lia. }
    specialize (Hmd Hrange).
    rewrite !andb_true_iff in Hmd.
    destruct Hmd as ((((Hm1 & Hm2) & Hd1) & Hd2) & Hsum).
    apply Z.leb_le in Hm1, Hm2, Hd1, Hd2. apply Z.eqb_eq in Hsum.
    unfold days_in_month, ymd2ord, days_before_month.
    rewrite is_leap_cycles by lia. fold leapyear.
    rewrite days_before_year_cycles by lia.
    unfold MAXORDINAL.
    repeat split; lia.
Qed.

(** A datetime made from a timestamp is valid, has no microseconds, and
    denotes that timestamp. *)
Lemma utcfromtimestamp_spec (t : Z) (d : datetime) :
  utcfromtimestamp t = Ok d ->
  valid d = true /\ microsecond d = 0 /\ timegm d = t.
Proof.
  unfold utcfromtimestamp. cbv zeta.
  destruct ((1 <=? t / 86400 + EPOCH_ORDINAL)
            && (t / 86400 + EPOCH_ORDINAL <=? MAXORDINAL)) eqn:Hr;
    [|discriminate].
  apply andb_true_iff in Hr. destruct Hr as [Hlo Hhi].
  apply Z.leb_le in Hlo, Hhi.
  pose proof (ord2ymd_spec (t / 86400 + EPOCH_ORDINAL) Hlo) as Hs.
  destruct (ord2ymd (t / 86400 + EPOCH_ORDINAL)) as [[y m] dd].
  destruct Hs as (Hm & Hd & Hord & Hy1 & Hy2). specialize (Hy2 Hhi).
  intros [= <-]. unfold valid, timegm. simpl.
  rewrite Hord.
  repeat split.
  - rewrite !andb_true_iff, !Z.leb_le, !Z.ltb_lt.
    repeat split; try lia; Z.div_mod_to_equations; lia.
  - unfold EPOCH_ORDINAL. Z.div_mod_to_equations. lia.
Qed.

Lemma utcfromtimestamp_in_range (t : Z) :
  MIN_TIMESTAMP <= t <= MAX_TIMESTAMP ->
  exists d, utcfromtimestamp t = Ok d.
Proof.
  unfold MIN_TIMESTAMP, MAX_TIMESTAMP.
  intros Ht. unfold utcfromtimestamp. cbv zeta.
  assert (Hr : (1 <=? t / 86400 + EPOCH_ORDINAL)
            && (t / 86400 + EPOCH_ORDINAL <=? MAXORDINAL) = true).
  { rewrite andb_true_iff, !Z.leb_le. unfold EPOCH_ORDINAL, MAXORDINAL.
    Z.div_mod_to_equations. lia. }
  rewrite Hr.
  destruct (ord2ymd (t / 86400 + EPOCH_ORDINAL)) as [[y m] dd].
  eexists. reflexivity.
Qed.


Lemma digit_val_digit (n : Z) : digit_val (digit n) = Some (n mod 10).
Proof.
  unfold digit.
  assert (Hr : 0 <= n mod 10 < 10) by (apply Z.mod_pos_bound; lia).
  set (r := n mod 10) in *.
  assert (Hc : r = 0 \/ r = 1 \/ r = 2 \/ r = 3 \/ r = 4 \/ r = 5
               \/ r = 6 \/ r = 7 \/ r = 8 \/ r = 9) by lia.
  destruct Hc as [->|[->|[->|[->|[->|[->|[->|[->|[->| ->]]]]]]]]];
    reflexivity.
Qed.

Lemma take2_digits (a b : Z) (rest : string) :
  take2 (String (digit a) (String (digit b) rest))
  = Some (10 * (a mod 10) + b mod 10, rest).
Proof. unfold take2. rewrite !digit_val_digit. reflexivity. Qed.

Lemma take2_pad2 (n : Z) (rest : string) :
  0 <= n < 100 -> take2 (pad2 n rest) = Some (n, rest).
Proof.
  intros Hn. unfold pad2. rewrite take2_digits.
  do 2 f_equal. Z.div_mod_to_equations. lia.
Qed.

Lemma take4_pad4 (n : Z) (rest : string) :
  0 <= n < 10000 -> take4 (pad4 n rest) = Some (n, rest).
Proof.
  intros Hn. unfold take4, pad4. rewrite take2_digits.
  unfold pad2. rewrite take2_digits.
  do 2 f_equal. Z.div_mod_to_equations. lia.
Qed.

Lemma expect_same (c : ascii) (rest : string) :
  expect c (String c rest) = Some rest.
Proof. unfold expect. rewrite Ascii.eqb_refl. reflexivity. Qed.

Lemma month_length_le (leapyear : bool) (m : Z) : month_length leapyear m <= 31.
Proof.
  unfold month_length, DAYS_IN_MONTH, bool_Z.
  destruct (Z.eqb_spec m 2) as [->|Hm]; [destruct leapyear; simpl; lia|].
  simpl. destruct m as [|p|p]; try lia.
  do 5 (destruct p as [p|p|]; try lia).
Qed.

(** Parsing undoes formatting. *)
Lemma strptime_strftime (d : datetime) :
  valid d = true -> microsecond d = 0 -> strptime (strftime d) = Ok d.
Proof.
  intros Hv Hus. destruct d as [y m dd h mi s us]. simpl in Hus. subst us.
  pose proof Hv as Hv'.
  unfold valid in Hv'. simpl in Hv'.
  rewrite !andb_true_iff, !Z.leb_le, !Z.ltb_lt in Hv'.
  pose proof (month_length_le (is_leap y) m) as Hml.
  unfold days_in_month in Hv'.
  unfold strptime, parse_fields, strftime.
  cbn [year month day hour minute second].
  rewrite take4_pad4 by lia. rewrite expect_same.
  do 2 (rewrite take2_pad2 by lia; rewrite expect_same).
  do 2 (rewrite take2_pad2 by lia; rewrite expect_same).
  rewrite take2_pad2 by lia.
  rewrite Hv. reflexivity.
Qed.

End DatetimeFacts.


Import DatetimeFacts.




Local Open Scope list_scope.

(** ** The order on datetimes *)

Lemma lex_ltb_trans (a b c : list Z) :
  length a = length b -> length b = length c ->
  lex_ltb a b = true -> lex_ltb b c = true -> lex_ltb a c = true.
Proof.
  revert b c. induction a as [|x a IH]; intros [|y b] [|z c]; simpl;
    try discriminate; try reflexivity.
  intros [= Hab] [= Hbc].
  rewrite !orb_true_iff, !andb_true_iff, !Z.ltb_lt, !Z.eqb_eq.
  intros [Hxy|[Hxy H1]] [Hyz|[Hyz H2]]; try (left; lia).
  right. split; [lia|]. eapply IH; eauto.
Qed.

Lemma lex_ltb_le_trans (a m d : list Z) :
  length a = length m -> length m = length d ->
  lex_ltb a m = true -> lex_ltb d m = false -> lex_ltb a d = true.
Proof.
  revert m d. induction a as [|x a IH]; intros [|y m] [|z d]; simpl;
    try discriminate; try reflexivity.
  intros [= Ham] [= Hmd] H1 H2.
  destruct (Z.ltb_spec x y), (Z.eqb_spec x y), (Z.ltb_spec z y),
    (Z.eqb_spec z y), (Z.ltb_spec x z), (Z.eqb_spec x z);
    simpl in *; try discriminate; try reflexivity; try lia.
  eapply IH; eauto.
Qed.

Lemma lex_ltb_asym (a b : list Z) :
  lex_ltb a b = true -> lex_ltb b a = false.
Proof.
  revert b. induction a as [|x a IH]; intros [|y b]; simpl;
    try discriminate; try reflexivity.
  intros H1.
  destruct (Z.ltb_spec x y), (Z.eqb_spec x y), (Z.ltb_spec y x),
    (Z.eqb_spec y x); simpl in *; try discriminate; try reflexivity; try lia.
  apply IH, H1.
Qed.

Lemma ltb_trans (a b c : datetime) :
  ltb a b = true -> ltb b c = true -> ltb a c = true.
Proof. apply lex_ltb_trans; reflexivity. Qed.

Lemma ltb_le_trans (a m d : datetime) :
  ltb a m = true -> ltb d m = false -> ltb a d = true.
Proof. apply lex_ltb_le_trans; reflexivity. Qed.

Lemma ltb_asym (a b : datetime) : ltb a b = true -> ltb b a = false.
Proof. apply lex_ltb_asym. Qed.

(** A datetime is before the minimum of a list exactly when it is before
    every item. *)
Lemma ltb_min_from (a best : datetime) (l : list datetime) :
  ltb a (min_from best l) = ltb a best && forallb (ltb a) l.
Proof.
  revert best. induction l as [|d l IH]; intros best; simpl.
  - rewrite andb_true_r. reflexivity.
  - rewrite IH. rewrite andb_assoc. f_equal.
    destruct (ltb d best) eqn:Hdb.
    + destruct (ltb a d) eqn:Had.
      * rewrite (ltb_trans a d best Had Hdb). reflexivity.
      * rewrite andb_false_r. reflexivity.
    + destruct (ltb a best) eqn:Hab.
      * rewrite (ltb_le_trans a best d Hab Hdb). reflexivity.
      * reflexivity.
Qed.

Lemma ltb_py_min (a m : datetime) (l : list datetime) :
  py_min l = Ok m -> ltb a m = forallb (ltb a) l.
Proof.
  destruct l as [|d l]; simpl; [discriminate|].
  intros [= <-]. apply ltb_min_from.
Qed.

(** ** One pass through the body of the loop *)

Lemma try_block_snd (r : response) (cursor : value) :
  snd (try_block r cursor) = page_result r.
Proof.
  unfold page_result. destruct r as [| |data]; simpl; try reflexivity.
  match goal with
  | |- context [match ?x with Ok _ => _ | Raise _ => _ end] => destruct x
  end; reflexivity.
Qed.

Lemma fetch_count_app (io1 io2 : list event) :
  fetch_count (io1 ++ io2) = (fetch_count io1 + fetch_count io2)%nat.
Proof. unfold fetch_count. rewrite filter_app, length_app. reflexivity. Qed.

Lemma created_times_app (a b : list post) (da db : list datetime) :
  created_times a = Ok da -> created_times b = Ok db ->
  created_times (a ++ b) = Ok (da ++ db).
Proof.
  revert da. induction a as [|p a IH]; intros da.
  - intros [= <-] Hb. exact Hb.
  - cbn [created_times app]. unfold py_getitem.
    destruct (dict_lookup "created_time" p) as [ct|]; cbn [bind];
      [|discriminate].
    destruct ct; try (intros Ha Hb; apply IH; assumption).
    destruct (strptime s) as [d|e]; cbn [bind]; [|discriminate].
    destruct (created_times a) as [ds|e] eqn:Hds; cbn [bind]; [|discriminate].
    intros [= <-] Hb. rewrite (IH ds eq_refl Hb). reflexivity.
Qed.

Section LoopFacts.

Variable tag : string.
Variable min_datetime : datetime.
Variable wait : Z.
Variable now : datetime.
Variable server : nat -> response.

#[local] Abbreviation body := (loop_body tag wait server).
#[local] Abbreviation test := (loop_test min_datetime).
#[local] Abbreviation loop := (while_loop tag min_datetime wait server).
#[local] Abbreviation steps := (iterate tag min_datetime wait server).
#[local] Abbreviation fetch := (get_posts tag min_datetime wait now server).
#[local] Abbreviation reached := (state_after tag min_datetime wait now server).


(** The body makes one GET, and what it does next is decided by the page
    alone. *)
Lemma loop_body_inv (st : state) :
  exists (cursor : value) (io' : list event),
    fetch_count io' = S (fetch_count (io st))
    /\ body st =
       match page_result (server (fetch_count (io st))) with
       | Raise _ =>
           Break (mk_state (all_posts st) cursor (earliest_datetime_so_far st) io')
       | Ok posts =>
           if (length posts =? 0)%nat then
             Break (mk_state (all_posts st) cursor (earliest_datetime_so_far st) io')
           else
             match earliest_of posts with
             | Raise e =>
                 Uncaught e (mk_state (all_posts st ++ posts) cursor
                               (earliest_datetime_so_far st) io')
             | Ok earliest =>
                 Continue (mk_state (all_posts st ++ posts) cursor earliest io')
             end
       end.
Proof.
  unfold body.
  rewrite <- (try_block_snd (server (fetch_count (io st))) (end_cursor st)).
  destruct (try_block (server (fetch_count (io st))) (end_cursor st))
    as [cursor fetched].
  eexists cursor, _. split; [|reflexivity].
  rewrite fetch_count_app.
  destruct (py_truthy (end_cursor st)).
  - rewrite fetch_count_app. simpl. unfold fetch_count at 2 3. simpl. lia.
  - unfold fetch_count at 2. simpl. lia.
Qed.

(** A pass that goes on has appended the posts of its page and holds their
    earliest timestamp. *)
Lemma loop_body_continue (st st' : state) :
  body st = Continue st' ->
  let batch := page_posts (server (fetch_count (io st))) in
  all_posts st' = all_posts st ++ batch
  /\ earliest_of batch = Ok (earliest_datetime_so_far st')
  /\ fetch_count (io st') = S (fetch_count (io st)).
Proof.
  destruct (loop_body_inv st) as (cursor & io' & Hio & ->).
  unfold page_posts.
  destruct (page_result (server (fetch_count (io st)))) as [posts|e];
    [|discriminate].
  destruct (length posts =? 0)%nat; [discriminate|].
  destruct (earliest_of posts) as [m|e] eqn:Hm; [|discriminate].
  intros [= <-]. simpl. auto.
Qed.


Lemma iterate_snoc (k : nat) (st0 st' : state) :
  steps (S k) st0 = Some st' <->
  exists st, steps k st0 = Some st /\ test st = true
             /\ body st = Continue st'.
Proof.
  revert st0. induction k as [|k IH]; intros st0.
  - simpl. split.
    + destruct (test st0) eqn:Ht; [|discriminate].
      destruct (body st0) as [st1| |] eqn:Hb; try discriminate.
      intros [= <-]. exists st0. auto.
    + intros (st & [= <-] & -> & ->). reflexivity.
  - change (steps (S (S k)) st0) with
      (if test st0 then
         match body st0 with
         | Continue st1 => steps (S k) st1
         | _ => None
         end
       else None).
    change (steps (S k) st0) with
      (if test st0 then
         match body st0 with
         | Continue st1 => steps k st1
         | _ => None
         end
       else None).
    destruct (test st0); [|split; [discriminate|intros (? & [=] & _)]].
    destruct (body st0) as [st1| |];
      try (split; [discriminate|intros (? & [=] & _)]).
    apply IH.
Qed.

Lemma posts_of_pages_S (n : nat) :
  posts_of_pages server (S n) = posts_of_pages server n ++ page_posts (server n).
Proof.
  unfold posts_of_pages. rewrite seq_S, flat_map_app. simpl.
  rewrite app_nil_r. reflexivity.
Qed.

(** After [k] passes the loop has made [k] requests and holds the posts of
    the first [k] pages. *)
Lemma state_after_pages (k : nat) (st : state) :
  reached k = Some st ->
  fetch_count (io st) = k /\ all_posts st = posts_of_pages server k.
Proof.
  revert st. induction k as [|k IH]; intros st.
  - intros [= <-]. split; reflexivity.
  - intros H. apply iterate_snoc in H. destruct H as (st0 & H0 & Ht & Hb).
    destruct (IH st0 H0) as [Hn Hall].
    destruct (loop_body_continue st0 st Hb) as (Happ & _ & Hio).
    rewrite Hn in *. split; [exact Hio|].
    rewrite posts_of_pages_S, Happ, Hall. reflexivity.
Qed.




(** The timestamps of the posts held at the top of the loop all parse, and
    while the loop goes on they are all after the minimum date. *)
Lemma state_after_times (k : nat) (st : state) :
  reached k = Some st ->
  exists ds, created_times (all_posts st) = Ok ds
    /\ (test st = true -> forallb (ltb min_datetime) ds = true).
Proof.
  revert st. induction k as [|k IH]; intros st.
  - intros [= <-]. exists []. split; reflexivity.
  - intros H. apply iterate_snoc in H. destruct H as (st0 & H0 & Ht & Hb).
    destruct (IH st0 H0) as (ds0 & Hds0 & Hall0). specialize (Hall0 Ht).
    destruct (loop_body_continue st0 st Hb) as (Happ & Hearliest & _).
    unfold earliest_of in Hearliest.
    destruct (created_times (page_posts (server (fetch_count (io st0)))))
      as [dsb|e] eqn:Hdsb; [|discriminate].
    cbn [bind] in Hearliest.
    exists (ds0 ++ dsb). split.
    + rewrite Happ. apply created_times_app; assumption.
    + unfold loop_test.
      rewrite (ltb_py_min _ _ _ Hearliest). intros Hb'.
      rewrite forallb_app, Hall0, Hb'. reflexivity.
Qed.

(** A page that is empty or holds only posts without timestamp does not
    let the loop go on. *)
Lemma earliest_of_empty_times (posts : list post) :
  posts <> [] -> forallb created_time_empty posts = true ->
  earliest_of posts = Raise ValueError.
Proof.
  destruct posts as [|p posts]; [congruence|]. intros _. simpl.
  rewrite andb_true_iff. intros [Hp _].
  unfold created_time_empty in Hp. unfold earliest_of.
  cbn [created_times]. unfold py_getitem.
  destruct (dict_lookup "created_time" p) as [[| | |[|]| |]|];
    try discriminate.
  reflexivity.
Qed.

Lemma ends_data_stops (st : state) :
  ends_data (server (fetch_count (io st))) = true ->
  exists out, (forall fuel, loop (S fuel) st = Some out)
    /\ (fetch_count (effects out) <= S (fetch_count (io st)))%nat.
Proof.
  intros He. unfold ends_data in He.
  destruct (loop_body_inv st) as (cursor & io' & Hio & Hb).
  destruct (page_result (server (fetch_count (io st)))) as [posts|e];
    [|discriminate].
  cbn [while_loop].
  destruct (test st).
  - rewrite Hb. destruct posts as [|p posts].
    + eexists. split; [intros; reflexivity|]. simpl. lia.
    + rewrite (earliest_of_empty_times (p :: posts)) by (congruence || exact He).
      eexists. split; [intros; reflexivity|]. simpl. lia.
  - eexists. split; [intros; reflexivity|]. simpl. lia.
Qed.

Lemma ends_data_terminates (j : nat) (st : state) :
  ends_data (server (fetch_count (io st) + j)) = true ->
  exists out, (forall fuel, (j < fuel)%nat -> loop fuel st = Some out)
    /\ (fetch_count (effects out) <= fetch_count (io st) + j + 1)%nat.
Proof.
  revert st. induction j as [|j IH]; intros st He.
  - rewrite Nat.add_0_r in He.
    destruct (ends_data_stops st He) as (out & Hout & Hn).
    exists out. split; [|lia].
    intros [|fuel] Hf; [lia|]. apply Hout.
  - destruct (test st) eqn:Ht.
    + destruct (loop_body_inv st) as (cursor & io' & Hio & Hb).
      destruct (body st) as [st'|st'|e st'] eqn:Hbody.
      * destruct (loop_body_continue st st' Hbody) as (_ & _ & Hcount).
        destruct (IH st') as (out & Hout & Hn).
        { rewrite Hcount. rewrite <- He. f_equal. f_equal. lia. }
        exists out. split; [|lia].
        intros [|fuel] Hf; [lia|].
        cbn [while_loop]. rewrite Ht, Hbody. apply Hout. lia.
      * exists (mk_outcome (Ok (all_posts st')) (io st')). split.
        -- intros [|fuel] Hf; [lia|].
           cbn [while_loop]. rewrite Ht, Hbody. reflexivity.
        -- simpl. clear IH He.
           destruct (page_result (server (fetch_count (io st)))) as [ps|e'];
             [destruct (length ps =? 0)%nat; [|destruct (earliest_of ps)]|];
             inversion Hb; subst; simpl; lia.
      * exists (mk_outcome (Raise e) (io st')). split.
        -- intros [|fuel] Hf; [lia|].
           cbn [while_loop]. rewrite Ht, Hbody. reflexivity.
        -- simpl. clear IH He.
           destruct (page_result (server (fetch_count (io st)))) as [ps|e'];
             [destruct (length ps =? 0)%nat; [|destruct (earliest_of ps)]|];
             inversion Hb; subst; simpl; lia.
    + exists (mk_outcome (Ok (all_posts st)) (io st)). split.
      * intros fuel _. destruct fuel; cbn [while_loop];
          rewrite Ht; reflexivity.
      * simpl. lia.
Qed.


End LoopFacts.

(** ** Pages that cannot be turned into posts *)




(** The exporter never raises: the first post is read only when there is
    one. *)
Lemma export_posts_ok (str_of_container : value -> string)
    (posts : list post) (output_path : string) (fs : filesystem) :
  export_posts str_of_container posts output_path fs =
  Ok match posts with
     | [] => fs
     | first :: _ =>
         <[output_path :=
             (writerow (keys first) ++ rows_text str_of_container posts)%string]> fs
     end.
Proof. destruct posts; reflexivity. Qed.


(** ** The claims about the fetch loop *)

(** C1, as amended: after appending each fetched batch, the loop recomputes
    the earliest timestamp as the minimum of the [created_time] values of
    that batch alone, every one of which is parsed; it stops when the
    configured minimum date is not earlier than that minimum, and this is
    the decision the minimum over the entire accumulated result set gives,
    because the posts of the earlier pages are all after the minimum date. *)
Theorem earliest_is_minimum_of_latest_batch (tag : string)
    (min_datetime : datetime) (wait : Z) (now : datetime)
    (server : nat -> response) (k : nat) (st : state) :
  state_after tag min_datetime wait now server (S k) = Some st ->
  all_posts st = posts_of_pages server (S k)
  /\ earliest_of (page_posts (server k)) = Ok (earliest_datetime_so_far st)
  /\ exists g, earliest_of (all_posts st) = Ok g
       /\ loop_test min_datetime st = ltb min_datetime g.
Proof.
  intros Hst.
  destruct (state_after_pages _ _ _ _ _ _ _ Hst) as [_ Hall].
  split; [exact Hall|].
  pose proof Hst as Hsnoc. apply iterate_snoc in Hsnoc.
  destruct Hsnoc as (st0 & H0 & Ht & Hb).
  destruct (state_after_pages _ _ _ _ _ _ _ H0) as [Hn _].
  destruct (loop_body_continue _ _ _ _ _ Hb) as (Happ & Hearliest & _).
  rewrite Hn in Hearliest, Happ.
  split; [exact Hearliest|].
  destruct (state_after_times _ _ _ _ _ _ _ H0) as (ds0 & Hds0 & Hall0).
  specialize (Hall0 Ht).
  unfold earliest_of in Hearliest.
  destruct (created_times (page_posts (server k))) as [dsb|e] eqn:Hdsb;
    [|discriminate].
  cbn [bind] in Hearliest.
  unfold earliest_of. rewrite Happ.
  rewrite (created_times_app _ _ _ _ Hds0 Hdsb). cbn [bind].
  destruct (py_min (ds0 ++ dsb)) as [g|e] eqn:Hg.
  - exists g. split; [reflexivity|].
    unfold loop_test.
    rewrite (ltb_py_min _ _ _ Hearliest), (ltb_py_min _ _ _ Hg).
    rewrite forallb_app, Hall0. reflexivity.
  - destruct ds0, dsb; discriminate.
Qed.

Lemma earliest_is_minimum_of_latest_batch_witness :
  exists st,
    state_after "cats" (midnight 2020 1 1) 20 noon_2021 two_pages 2 = Some st
    /\ earliest_of (page_posts (two_pages 1%nat))
       = Ok (earliest_datetime_so_far st)
    /\ earliest_datetime_so_far st = midnight 2021 1 2.
Proof.
  eexists. split; [vm_compute; reflexivity|].
  split.
  - apply (earliest_is_minimum_of_latest_batch
             "cats" (midnight 2020 1 1) 20 noon_2021 two_pages 1).
    vm_compute. reflexivity.
  - reflexivity.
Defined.

(** C1, as stated, fails when a later page holds later posts: after the
    second of [two_pages] the loop holds 2021-01-02, the earliest of the
    second page, while the earliest of all posts is 2021-01-01. *)
Lemma earliest_is_not_global_minimum :
  ~ earliest_is_global_minimum "cats" (midnight 2020 1 1) 20 noon_2021 two_pages.
Proof.
  intros H. specialize (H 1%nat).
  vm_compute in H. specialize (H _ eq_refl). discriminate.
Qed.

(** C4: the fetch loop terminates whenever some page is empty or holds only
    records with an empty [created_time], whatever the minimum date: with
    page [k] such a page, every run with more than [k] units of fuel ends
    with the same outcome, after at most [k + 1] requests.  (On a page of
    records without timestamp the loop ends by the [ValueError] of C2.) *)
Theorem fetch_loop_terminates (tag : string) (min_datetime : datetime)
    (wait : Z) (now : datetime) (server : nat -> response) (k : nat) :
  ends_data (server k) = true ->
  exists out,
    (forall fuel, (k < fuel)%nat ->
       get_posts tag min_datetime wait now server fuel = Some out)
    /\ (fetch_count (effects out) <= S k)%nat.
Proof.
  intros He.
  destruct (ends_data_terminates tag min_datetime wait server k
              (initial_state now) He) as (out & Hout & Hn).
  exists out. split; [exact Hout|]. simpl in Hn. lia.
Qed.

Lemma fetch_loop_terminates_witness :
  ends_data (two_pages 2%nat) = true
  /\ exists out,
       (forall fuel, (2 < fuel)%nat ->
          get_posts "cats" (midnight 2020 1 1) 20 noon_2021 two_pages fuel
          = Some out)
       /\ (fetch_count (effects out) <= 3)%nat.
Proof.
  split; [reflexivity|].
  apply (fetch_loop_terminates "cats" (midnight 2020 1 1) 20 noon_2021
           two_pages 2).
  reflexivity.
Defined.



(** C9: when the minimum date is strictly after the current time, the loop
    test fails on the initial earliest-seen value, the current time: the
    loop makes no request at all (so at most one) and the result set is
    empty. *)
Theorem min_date_after_now_stops (tag : string) (min_datetime : datetime)
    (wait : Z) (now : datetime) (server : nat -> response) (fuel : nat) :
  ltb now min_datetime = true ->
  exists out,
    get_posts tag min_datetime wait now server fuel = Some out
    /\ returned out = Ok []
    /\ (fetch_count (effects out) <= 1)%nat.
Proof.
  intros Hlt. apply ltb_asym in Hlt.
  exists (mk_outcome (Ok []) []).
  split; [|split; [reflexivity|vm_compute; lia]].
  unfold get_posts.
  destruct fuel; cbn [while_loop]; unfold loop_test, initial_state;
    cbn [earliest_datetime_so_far]; rewrite Hlt; reflexivity.
Qed.

Lemma min_date_after_now_stops_witness :
  ltb noon_2021 (midnight 2022 1 1) = true
  /\ exists out,
       get_posts "cats" (midnight 2022 1 1) 20 noon_2021 two_pages 5 = Some out
       /\ returned out = Ok []
       /\ (fetch_count (effects out) <= 1)%nat.
Proof.
  split; [reflexivity|].
  apply (min_date_after_now_stops "cats" (midnight 2022 1 1) 20 noon_2021
           two_pages 5).
  reflexivity.
Defined.



(** C2, where the code departs from it: a record without timestamp has the
    empty string as [created_time], which is a [str], so the filter under
    [min] keeps it and [strptime] raises outside the [try]: on
    [then_no_timestamp] the [ValueError] escapes the loop and [main], and
    the post of the first page is not exported (the files are untouched). *)
Theorem missing_timestamp_escapes_main (str_of_container : value -> string)
    (fs : filesystem) :
  isinstance_str (PStr EmptyString) = true
  /\ earliest_of (page_posts (then_no_timestamp 1%nat)) = Raise ValueError
  /\ get_posts "cats" (midnight 2020 1 1) 20 noon_2021 then_no_timestamp 10
     = Some (mk_outcome (Raise ValueError)
               [Get "cats" None; Sleep 20; Get "cats" (Some (PStr "c1"))])
  /\ main str_of_container "cats" (midnight 2020 1 1) "data.csv" 20 noon_2021
       then_no_timestamp fs 10
     = Some (mk_run (Raise ValueError)
               [Get "cats" None; Sleep 20; Get "cats" (Some (PStr "c1"))] fs).
Proof.
  assert (Hg : get_posts "cats" (midnight 2020 1 1) 20 noon_2021
                 then_no_timestamp 10
               = Some (mk_outcome (Raise ValueError)
                   [Get "cats" None; Sleep 20; Get "cats" (Some (PStr "c1"))]))
    by (vm_compute; reflexivity).
  split; [reflexivity|]. split; [vm_compute; reflexivity|].
  split; [exact Hg|].
  unfold main. rewrite Hg. reflexivity.
Qed.

(** ** The claims about the record extractor *)

(** C3, where the code departs from it: on a node whose caption list is
    there and empty, [edges[0]] raises [IndexError]; no record is returned,
    and the page that holds the node is lost. *)
Theorem empty_caption_edges_raise :
  get_post_from_node node_no_caption = Raise IndexError
  /\ page_result (Body (page_of "c1" [node_at "0" 1609459200; node_no_caption]))
     = Raise IndexError.
Proof. split; vm_compute; reflexivity. Qed.

Section Extractor.

Variable d : list (string * value).
Variable B : Type.

Lemma get_field (k : string) (K : value -> result B) :
  bind (py_get (PDict d) k PNone) K
  = K (or_null (find_path (PDict d) [Key k])).
Proof.
  unfold py_get. cbn [find_path].
  destruct (dict_lookup k d); reflexivity.
Qed.

Lemma get_nested (k1 k2 : string) (K : value -> result B) :
  absent_or_dict (dict_lookup k1 d) = true ->
  bind (py_get (PDict d) k1 empty_dict)
    (fun x => bind (py_get x k2 PNone) K)
  = K (or_null (find_path (PDict d) [Key k1; Key k2])).
Proof.
  unfold py_get, absent_or_dict. cbn [find_path].
  destruct (dict_lookup k1 d) as [[| | | | |o]|]; try discriminate; intros _;
    cbn [bind empty_dict dict_lookup or_null]; [|reflexivity].
  destruct (dict_lookup k2 o); reflexivity.
Qed.

Lemma get_caption (K : value -> result B) :
  caption_ok (dict_lookup "edge_media_to_caption" d) = true ->
  bind (py_get (PDict d) "edge_media_to_caption" empty_dict)
    (fun captions => bind (py_get captions "edges" (PList [empty_dict]))
    (fun edges => bind (py_getitem0 edges)
    (fun first => bind (py_get first "node" empty_dict)
    (fun caption_node => bind (py_get caption_node "text" PNone) K))))
  = K (or_null (find_path (PDict d)
         [Key "edge_media_to_caption"; Key "edges"; First; Key "node";
          Key "text"])).
Proof.
  unfold caption_ok, absent_or_dict.
  cbn [find_path]. unfold py_get at 1.
  destruct (dict_lookup "edge_media_to_caption" d) as [[| | | | |c]|];
    try discriminate; [|intros _; reflexivity].
  cbn [bind]. unfold py_get at 1.
  destruct (dict_lookup "edges" c) as [[| | | |[|[| | | | |e] l]|]|];
    try discriminate; [|intros _; reflexivity].
  cbn [bind py_getitem0]. unfold py_get at 1.
  destruct (dict_lookup "node" e) as [[| | | | |n]|]; try discriminate;
    intros _; [|reflexivity].
  cbn [bind]. unfold py_get. destruct (dict_lookup "text" n); reflexivity.
Qed.

Lemma get_created_time :
  timestamp_ok (dict_lookup "taken_at_timestamp" d) = true ->
  exists created : string,
    convert_timestamp_to_string
      (or_null (dict_lookup "taken_at_timestamp" d)) = Ok created
    /\ (dict_lookup "taken_at_timestamp" d = None -> created = EmptyString)
    /\ forall K : string -> result B,
         bind (py_get (PDict d) "taken_at_timestamp" PNone)
           (fun ts => bind (convert_timestamp_to_string ts) K)
         = K created.
Proof.
  unfold timestamp_ok, py_get.
  destruct (dict_lookup "taken_at_timestamp" d) as [[| |t| | |]|];
    try discriminate.
  - intros _. exists EmptyString. repeat split.
  - rewrite andb_true_iff, !Z.leb_le. intros Ht.
    destruct (utcfromtimestamp_in_range t Ht) as [dt Hdt].
    exists (strftime dt). cbn [or_null bind convert_timestamp_to_string].
    rewrite Hdt. repeat split. discriminate.
  - intros _. exists EmptyString. repeat split.
Qed.

End Extractor.

(** Whatever the node, a record that is returned has the nine keys, in the
    order of the dict literal. *)
Lemma get_post_from_node_keys (node : value) (p : post) :
  get_post_from_node node = Ok p -> keys p = POST_KEYS.
Proof.
  unfold get_post_from_node.
  repeat match goal with
  | |- bind ?r _ = Ok _ -> _ => destruct r; cbn [bind]; [|discriminate]
  end.
  intros [= <-]. reflexivity.
Qed.

Lemma map_result_Forall {A B : Type} (P : B -> Prop) (f : A -> result B)
    (l : list A) (l' : list B) :
  (forall x y, f x = Ok y -> P y) ->
  map_result f l = Ok l' -> Forall P l'.
Proof.
  intros Hf. revert l'. induction l as [|x l IH]; intros l'; cbn [map_result].
  - intros [= <-]. constructor.
  - destruct (f x) as [y|e] eqn:Hy; cbn [bind]; [|discriminate].
    destruct (map_result f l) as [ys|e]; cbn [bind]; [|discriminate].
    intros [= <-]. constructor; [eapply Hf, Hy|apply IH; reflexivity].
Qed.

(** Every record of a result set has the same nine keys in the same
    order. *)
Lemma posts_of_pages_keys (server : nat -> response) (n : nat) :
  Forall (fun p => keys p = POST_KEYS) (posts_of_pages server n).
Proof.
  unfold posts_of_pages. apply List.Forall_flat_map, List.Forall_forall.
  intros k _. unfold page_posts, page_result, try_block.
  destruct (server k) as [| |data]; cbn [snd]; try constructor.
  destruct (navigate data (MEDIA_PATH ++ ["page_info"; "end_cursor"]));
    cbn [snd]; [|constructor].
  destruct (navigate data (MEDIA_PATH ++ ["edges"])) as [edges|e];
    cbn [bind]; [|constructor].
  destruct (py_iter edges) as [items|e]; cbn [bind]; [|constructor].
  destruct (map_result post_of_edge items) as [posts|e] eqn:Hposts;
    [|constructor].
  eapply map_result_Forall; [|exact Hposts].
  intros edge q. unfold post_of_edge.
  destruct (py_get edge "node" PNone); cbn [bind]; [|discriminate].
  apply get_post_from_node_keys.
Qed.

(** C7: for every raw node with any subset of the expected fields missing,
    the extractor returns a record with exactly the nine keys in their
    fixed order; each field holds the value found at its path, and null
    when a step of the path is missing; [created_time] is the text of the
    timestamp, and the empty string when the timestamp is absent. *)
Theorem extractor_fills_missing_fields (d : list (string * value)) :
  fields_missing_or_shaped d = true ->
  exists (p : post) (created : string),
    get_post_from_node (PDict d) = Ok p
    /\ keys p = POST_KEYS
    /\ (forall k path, In (k, path) FIELD_PATHS ->
          dict_lookup k p = Some (or_null (find_path (PDict d) path)))
    /\ dict_lookup "created_time" p = Some (PStr created)
    /\ convert_timestamp_to_string
         (or_null (dict_lookup "taken_at_timestamp" d)) = Ok created
    /\ (dict_lookup "taken_at_timestamp" d = None -> created = EmptyString).
Proof.
  unfold fields_missing_or_shaped. rewrite !andb_true_iff.
  intros ((((Howner & Hts) & Hcomment) & Hliked) & Hcaption).
  destruct (get_created_time d post Hts) as (created & Hconv & Habsent & Hbind).
  unfold get_post_from_node.
  rewrite get_field, (get_nested d post "owner" "id") by exact Howner.
  rewrite Hbind, get_field.
  rewrite (get_nested d post "edge_media_to_comment" "count") by exact Hcomment.
  rewrite (get_nested d post "edge_liked_by" "count") by exact Hliked.
  rewrite !get_field.
  rewrite (get_caption d post) by exact Hcaption.
  eexists _, created. split; [reflexivity|].
  split; [reflexivity|].
  split; [|split; [reflexivity|split; [exact Hconv|exact Habsent]]].
  intros k path Hin. unfold FIELD_PATHS in Hin. cbn [In] in Hin.
  repeat (destruct Hin as [[= <- <-]|Hin]; [reflexivity|]).
  destruct Hin.
Qed.

Lemma extractor_fills_missing_fields_witness :
  fields_missing_or_shaped example_fields = true
  /\ exists (p : post) (created : string),
       get_post_from_node (PDict example_fields) = Ok p
       /\ keys p = POST_KEYS
       /\ (forall k path, In (k, path) FIELD_PATHS ->
             dict_lookup k p
             = Some (or_null (find_path (PDict example_fields) path)))
       /\ dict_lookup "created_time" p = Some (PStr created)
       /\ convert_timestamp_to_string
            (or_null (dict_lookup "taken_at_timestamp" example_fields))
          = Ok created
       /\ (dict_lookup "taken_at_timestamp" example_fields = None ->
           created = EmptyString).
Proof.
  split; [reflexivity|].
  apply (extractor_fills_missing_fields example_fields). reflexivity.
Defined.

(** ** The text of the exported file *)


















(** The records of the two examples are the ones the extractor returns. *)
Lemma example_posts_extracted :
  get_post_from_node node_example = Ok post_example
  /\ get_post_from_node node_two_line_caption = Ok post_two_line_caption.
Proof. split; vm_compute; reflexivity. Qed.


(** * Further properties *)

(** ** More on the text of a timestamp *)






(** X2: two integer timestamps with the same text are the same timestamp:
    the [created_time] column loses nothing of the timestamp. *)
Theorem created_time_text_injective (t1 t2 : Z) (s : string) :
  convert_timestamp_to_string (PInt t1) = Ok s ->
  convert_timestamp_to_string (PInt t2) = Ok s ->
  t1 = t2.
Proof.
  cbn [convert_timestamp_to_string].
  destruct (utcfromtimestamp t1) as [d1|e] eqn:H1; cbn [bind]; [|discriminate].
  destruct (utcfromtimestamp t2) as [d2|e] eqn:H2; cbn [bind]; [|discriminate].
  intros Hs1 Hs2.
  assert (Heq : strftime d2 = strftime d1) by congruence.
  destruct (utcfromtimestamp_spec t1 d1 H1) as (Hv1 & Hu1 & <-).
  destruct (utcfromtimestamp_spec t2 d2 H2) as (Hv2 & Hu2 & <-).
  pose proof (strptime_strftime d1 Hv1 Hu1) as Hp1.
  pose proof (strptime_strftime d2 Hv2 Hu2) as Hp2.
  rewrite Heq in Hp2. rewrite Hp1 in Hp2. injection Hp2 as ->. reflexivity.
Qed.

(** ** The order of datetimes is the order of time *)

Lemma days_before_year_succ (y : Z) :
  days_before_year (y + 1) = days_before_year y + 365 + bool_Z (is_leap y).
Proof.
  unfold days_before_year, is_leap, bool_Z. cbv zeta.
  replace (y + 1 - 1) with y by lia.
  repeat match goal with
  | |- context [?a =? ?b] => destruct (Z.eqb_spec a b)
  end; simpl; Z.div_mod_to_equations; lia.
Qed.

Lemma days_before_year_mono (y1 y2 : Z) :
  y1 <= y2 -> days_before_year y1 <= days_before_year y2.
Proof.
  intros Hy. unfold days_before_year. cbv zeta.
  Z.div_mod_to_equations. lia.
Qed.

Lemma month_cases (m : Z) :
  1 <= m <= 12 ->
  m = 1 \/ m = 2 \/ m = 3 \/ m = 4 \/ m = 5 \/ m = 6 \/ m = 7 \/ m = 8
  \/ m = 9 \/ m = 10 \/ m = 11 \/ m = 12.
Proof. lia. Qed.

Ltac each_month H :=
  destruct (month_cases _ H)
    as [->|[->|[->|[->|[->|[->|[->|[->|[->|[->|[->| ->]]]]]]]]]]].

(** The day of the year of a date is between 1 and the length of the
    year. *)
Lemma day_of_year_bounds (leapyear : bool) (m d : Z) :
  1 <= m <= 12 -> 1 <= d <= month_length leapyear m ->
  1 <= DAYS_BEFORE_MONTH m + bool_Z ((2 <? m) && leapyear) + d
    <= 365 + bool_Z leapyear.
Proof.
  unfold month_length.
  intros Hm. each_month Hm; destruct leapyear; cbn; lia.
Qed.

Lemma day_of_year_lt (leapyear : bool) (m1 d1 m2 d2 : Z) :
  1 <= m1 <= 12 -> 1 <= m2 <= 12 ->
  d1 <= month_length leapyear m1 -> 1 <= d2 ->
  m1 < m2 ->
  DAYS_BEFORE_MONTH m1 + bool_Z ((2 <? m1) && leapyear) + d1
  < DAYS_BEFORE_MONTH m2 + bool_Z ((2 <? m2) && leapyear) + d2.
Proof.
  unfold month_length.
  intros Hm1 Hm2. each_month Hm1; each_month Hm2; destruct leapyear; cbn; lia.
Qed.

Lemma ymd2ord_lt (y1 m1 d1 y2 m2 d2 : Z) :
  1 <= m1 <= 12 -> 1 <= d1 <= days_in_month y1 m1 ->
  1 <= m2 <= 12 -> 1 <= d2 <= days_in_month y2 m2 ->
  y1 < y2 \/ (y1 = y2 /\ (m1 < m2 \/ (m1 = m2 /\ d1 < d2))) ->
  ymd2ord y1 m1 d1 < ymd2ord y2 m2 d2.
Proof.
  unfold days_in_month, ymd2ord, days_before_month.
  intros Hm1 Hd1 Hm2 Hd2 [Hy|[<- [Hm|[<- Hd]]]].
  - pose proof (day_of_year_bounds _ _ _ Hm1 Hd1).
    pose proof (day_of_year_bounds _ _ _ Hm2 Hd2).
    pose proof (days_before_year_succ y1).
    pose proof (days_before_year_mono (y1 + 1) y2 ltac:(lia)).
    lia.
  - pose proof (day_of_year_lt (is_leap y1) m1 d1 m2 d2 Hm1 Hm2
                  ltac:(lia) ltac:(lia) Hm).
    lia.
  - lia.
Qed.

Lemma lex_ltb_cons (x y : Z) (a b : list Z) :
  lex_ltb (x :: a) (y :: b) = true <->
  x < y \/ (x = y /\ lex_ltb a b = true).
Proof.
  cbn [lex_ltb]. rewrite orb_true_iff, andb_true_iff, Z.ltb_lt, Z.eqb_eq.
  reflexivity.
Qed.

(** Of two valid datetimes without microseconds, the earlier in the order
    of Python denotes the earlier time. *)
Lemma timegm_lt (a b : datetime) :
  valid a = true -> valid b = true ->
  microsecond a = 0 -> microsecond b = 0 ->
  ltb a b = true -> timegm a < timegm b.
Proof.
  destruct a as [y1 m1 d1 h1 mi1 s1 u1], b as [y2 m2 d2 h2 mi2 s2 u2].
  unfold valid, ltb, fields, timegm. cbn [year month day hour minute second microsecond].
  rewrite !andb_true_iff, !Z.leb_le, !Z.ltb_lt.
  intros Ha Hb -> ->.
  rewrite !lex_ltb_cons. cbn [lex_ltb].
  intros H.
  assert (Hcase :
    (y1 < y2 \/ (y1 = y2 /\ (m1 < m2 \/ (m1 = m2 /\ d1 < d2))))
    \/ (y1 = y2 /\ m1 = m2 /\ d1 = d2
        /\ h1 * 3600 + mi1 * 60 + s1 < h2 * 3600 + mi2 * 60 + s2)).
  { destruct H as [H|[-> [H|[-> [H|[-> H]]]]]]; try (left; lia).
    right. do 3 (split; [reflexivity|]).
    destruct H as [H|[-> [H|[-> [H|[_ H]]]]]]; lia. }
  destruct Hcase as [Hdate|(-> & -> & -> & Htime)]; [|lia].
  pose proof (ymd2ord_lt y1 m1 d1 y2 m2 d2
                ltac:(lia) ltac:(lia) ltac:(lia) ltac:(lia) Hdate).
  lia.
Qed.

Lemma lex_ltb_total (a b : list Z) :
  length a = length b ->
  lex_ltb a b = false -> lex_ltb b a = false -> a = b.
Proof.
  revert b. induction a as [|x a IH]; intros [|y b]; simpl;
    try discriminate; try reflexivity.
  intros [= Hlen] H1 H2.
  destruct (Z.ltb_spec x y), (Z.eqb_spec x y), (Z.ltb_spec y x),
    (Z.eqb_spec y x); simpl in *; try discriminate; try lia.
  subst. f_equal. apply IH; assumption.
Qed.

Lemma ltb_total (a b : datetime) :
  ltb a b = false -> ltb b a = false -> a = b.
Proof.
  intros H1 H2.
  pose proof (lex_ltb_total (fields a) (fields b) eq_refl H1 H2) as Heq.
  destruct a, b. unfold fields in Heq. simpl in Heq.
  injection Heq as -> -> -> -> -> -> ->. reflexivity.
Qed.

(** X3: the comparison of the loop, on the datetimes of two timestamps,
    is the comparison of the timestamps: comparing datetimes field by field
    is comparing points in time. *)
Theorem utcfromtimestamp_keeps_order (t1 t2 : Z) (d1 d2 : datetime) :
  utcfromtimestamp t1 = Ok d1 -> utcfromtimestamp t2 = Ok d2 ->
  ltb d1 d2 = (t1 <? t2).
Proof.
  intros H1 H2.
  destruct (utcfromtimestamp_spec t1 d1 H1) as (Hv1 & Hu1 & Ht1).
  destruct (utcfromtimestamp_spec t2 d2 H2) as (Hv2 & Hu2 & Ht2).
  destruct (ltb d1 d2) eqn:H12.
  - pose proof (timegm_lt d1 d2 Hv1 Hv2 Hu1 Hu2 H12).
    symmetry. apply Z.ltb_lt. lia.
  - symmetry. apply Z.ltb_ge.
    destruct (ltb d2 d1) eqn:H21.
    + pose proof (timegm_lt d2 d1 Hv2 Hv1 Hu2 Hu1 H21). lia.
    + rewrite (ltb_total d1 d2 H12 H21) in Ht1. lia.
Qed.

(** ** More on the record extractor *)

Lemma py_get_ext (d d' : list (string * value)) (k : string)
    (default : value) :
  dict_lookup k d = dict_lookup k d' ->
  py_get (PDict d) k default = py_get (PDict d') k default.
Proof. unfold py_get. intros ->. reflexivity. Qed.

(** X4: the record depends on the node through its nine expected keys
    only: two nodes that agree on them give the same record, or the same
    exception, whatever else they hold. *)
Theorem extractor_reads_expected_keys_only (d d' : list (string * value)) :
  (forall k, In k EXPECTED_KEYS -> dict_lookup k d = dict_lookup k d') ->
  get_post_from_node (PDict d) = get_post_from_node (PDict d').
Proof.
  intros H. unfold get_post_from_node.
  repeat match goal with
  | |- context [py_get (PDict d) ?k ?default] =>
      rewrite (py_get_ext d d' k default)
        by (apply H; unfold EXPECTED_KEYS; cbn [In]; tauto)
  end.
  reflexivity.
Qed.

Lemma extractor_reads_expected_keys_only_witness :
  (forall k, In k EXPECTED_KEYS ->
     dict_lookup k (("viewer_has_liked", PBool true) :: example_fields)
     = dict_lookup k example_fields)
  /\ get_post_from_node
       (PDict (("viewer_has_liked", PBool true) :: example_fields))
     = get_post_from_node (PDict example_fields).
Proof.
  assert (H : forall k, In k EXPECTED_KEYS ->
     dict_lookup k (("viewer_has_liked", PBool true) :: example_fields)
     = dict_lookup k example_fields).
  { intros k Hk. unfold EXPECTED_KEYS in Hk. cbn [In] in Hk.
    repeat (destruct Hk as [<-|Hk]; [reflexivity|]). destruct Hk. }
  split; [exact H|].
  apply (extractor_reads_expected_keys_only _ _ H).
Defined.

(** X5: an edge that is no mapping, or whose [node] is absent or no
    mapping, has no record: extracting it raises [AttributeError]. *)
Theorem extractor_needs_a_mapping (edge : value) :
  match edge with
  | PDict e => is_dict (or_null (dict_lookup "node" e)) = false
  | _ => True
  end ->
  post_of_edge edge = Raise AttributeError.
Proof.
  destruct edge as [| | | | |e]; try reflexivity.
  unfold post_of_edge, py_get at 1.
  destruct (dict_lookup "node" e) as [[| | | | |n]|]; cbn [or_null is_dict bind];
    try reflexivity; discriminate.
Qed.

Lemma extractor_needs_a_mapping_witness :
  is_dict (or_null (dict_lookup "node" [("cursor", PStr "x")])) = false
  /\ post_of_edge (PDict [("cursor", PStr "x")]) = Raise AttributeError.
Proof.
  split; [reflexivity|].
  apply (extractor_needs_a_mapping (PDict [("cursor", PStr "x")])).
  reflexivity.
Defined.

(** The [created_time] of a record is the empty string or a text that
    [strptime] reads. *)
Lemma convert_timestamp_parseable (ts : value) (s : string) :
  convert_timestamp_to_string ts = Ok s ->
  s = EmptyString \/ exists d, strptime s = Ok d.
Proof.
  assert (Hint : forall n, (let* d := utcfromtimestamp n in Ok (strftime d)) = Ok s ->
                           exists d, strptime s = Ok d).
  { intros n. destruct (utcfromtimestamp n) as [d|e] eqn:Hd; cbn [bind];
      [|discriminate].
    intros Hs. assert (Hs' : s = strftime d) by congruence. subst s.
    destruct (utcfromtimestamp_spec n d Hd) as (Hv & Hu & _).
    exists d. apply strptime_strftime; assumption. }
  destruct ts; cbn [convert_timestamp_to_string]; try discriminate.
  - intros [= <-]. left. reflexivity.
  - intros Hs. right. eapply Hint, Hs.
  - intros Hs. right. eapply Hint, Hs.
Qed.

Lemma get_post_created_time (node : value) (p : post) :
  get_post_from_node node = Ok p -> created_time_readable p.
Proof.
  unfold get_post_from_node.
  repeat match goal with
  | |- bind (convert_timestamp_to_string ?ts) _ = Ok _ -> _ =>
      let s := fresh "s" in let Hs := fresh "Hs" in
      destruct (convert_timestamp_to_string ts) as [s|] eqn:Hs; cbn [bind];
        [|discriminate]
  | |- bind ?r _ = Ok _ -> _ => destruct r; cbn [bind]; [|discriminate]
  end.
  intros [= <-]. exists s. split; [reflexivity|].
  eapply convert_timestamp_parseable, Hs.
Qed.

(** ** Runs of the fetch loop *)

Lemma paced_app (wait : Z) (tag : string) (io1 io2 : list event) :
  paced wait tag io1 = true ->
  paced wait tag (io1 ++ io2) = paced wait tag io2.
Proof.
  remember (length io1) as n eqn:Hn.
  revert io1 Hn. induction n as [n IH] using lt_wf_ind. intros io1 Hn.
  destruct io1 as [|[w|t [c|]] io1]; [reflexivity| |discriminate|].
  - destruct io1 as [|[w'|t [c|]] io1]; try discriminate.
    cbn [paced app]. rewrite !andb_true_iff. intros [H Hrest].
    rewrite (IH (length io1)) by (simpl in Hn; lia || reflexivity || exact Hrest).
    destruct H as [[-> ->] ->]. reflexivity.
  - cbn [paced app]. rewrite andb_true_iff. intros [-> Hrest].
    rewrite (IH (length io1)) by (simpl in Hn; lia || reflexivity || exact Hrest).
    reflexivity.
Qed.

Lemma paced_request_block (wait : Z) (tag : string) (cursor : value) :
  paced wait tag (request_block wait tag cursor) = true.
Proof.
  unfold request_block. destruct (py_truthy cursor) eqn:Hc; cbn [paced].
  - rewrite Z.eqb_refl, String.eqb_refl, Hc. reflexivity.
  - rewrite String.eqb_refl. reflexivity.
Qed.

Lemma page_result_Forall (P : post -> Prop) (r : response)
    (posts : list post) :
  (forall node p, get_post_from_node node = Ok p -> P p) ->
  page_result r = Ok posts -> Forall P posts.
Proof.
  intros HP. unfold page_result, try_block.
  destruct r as [| |data]; cbn [snd]; try discriminate.
  destruct (navigate data (MEDIA_PATH ++ ["page_info"; "end_cursor"]));
    cbn [snd]; [|discriminate].
  destruct (navigate data (MEDIA_PATH ++ ["edges"])) as [edges|e];
    cbn [bind]; [|discriminate].
  destruct (py_iter edges) as [items|e]; cbn [bind]; [|discriminate].
  apply map_result_Forall.
  intros edge q. unfold post_of_edge.
  destruct (py_get edge "node" PNone); cbn [bind]; [|discriminate].
  apply HP.
Qed.

(** The timestamps of a batch of extracted records are read unless one of
    them is the empty string, and then [strptime] raises. *)
Lemma created_times_readable (posts : list post) :
  Forall created_time_readable posts ->
  if existsb created_time_empty posts
  then created_times posts = Raise ValueError
  else exists ds, created_times posts = Ok ds /\ length ds = length posts.
Proof.
  induction 1 as [|p posts (s & Hs & Hparse) _ IH]; cbn [existsb].
  - exists []. split; reflexivity.
  - assert (Hstep : created_times (p :: posts)
                    = let* d := strptime s in
                      let* ds := created_times posts in Ok (d :: ds)).
    { cbn [created_times]. unfold py_getitem. rewrite Hs. reflexivity. }
    unfold created_time_empty at 1. rewrite Hs, Hstep.
    destruct Hparse as [->|[d Hd]]; [reflexivity|].
    destruct s as [|c s]; [discriminate Hd|]. cbn [orb].
    rewrite Hd. cbn [bind].
    destruct (existsb created_time_empty posts).
    + rewrite IH. reflexivity.
    + destruct IH as (ds & -> & Hlen). exists (d :: ds).
      split; [reflexivity|]. simpl. rewrite Hlen. reflexivity.
Qed.

(** X7: on the records of a fetched, non-empty page the minimum
    computation raises exactly when a record has no timestamp, and what it
    raises is [ValueError]; otherwise it gives a datetime. *)
Theorem earliest_raises_on_missing_timestamp (r : response)
    (posts : list post) :
  page_result r = Ok posts -> posts <> [] ->
  if existsb created_time_empty posts
  then earliest_of posts = Raise ValueError
  else exists earliest, earliest_of posts = Ok earliest.
Proof.
  intros Hr Hne.
  pose proof (created_times_readable posts
                (page_result_Forall _ r posts get_post_created_time Hr)) as H.
  unfold earliest_of.
  destruct (existsb created_time_empty posts).
  - rewrite H. reflexivity.
  - destruct H as (ds & -> & Hlen). cbn [bind].
    destruct ds as [|d ds].
    + destruct posts; [congruence|discriminate].
    + eexists. reflexivity.
Qed.

Section LoopRuns.

Variable tag : string.
Variable min_datetime : datetime.
Variable wait : Z.
Variable now : datetime.
Variable server : nat -> response.

#[local] Abbreviation body := (loop_body tag wait server).
#[local] Abbreviation test := (loop_test min_datetime).
#[local] Abbreviation loop := (while_loop tag min_datetime wait server).
#[local] Abbreviation fetch := (get_posts tag min_datetime wait now server).
#[local] Abbreviation invariant := (loop_invariant tag wait server).

(** One pass through the body, with the effects it adds. *)
Lemma loop_body_cases (st : state) :
  exists cursor : value,
    let io' := io st ++ request_block wait tag (end_cursor st) in
    body st =
    match page_result (server (fetch_count (io st))) with
    | Raise _ =>
        Break (mk_state (all_posts st) cursor (earliest_datetime_so_far st) io')
    | Ok posts =>
        if (length posts =? 0)%nat then
          Break (mk_state (all_posts st) cursor (earliest_datetime_so_far st) io')
        else
          match earliest_of posts with
          | Raise e =>
              Uncaught e (mk_state (all_posts st ++ posts) cursor
                            (earliest_datetime_so_far st) io')
          | Ok earliest =>
              Continue (mk_state (all_posts st ++ posts) cursor earliest io')
          end
    end.
Proof.
  unfold loop_body, request_block.
  rewrite <- (try_block_snd (server (fetch_count (io st))) (end_cursor st)).
  destruct (try_block (server (fetch_count (io st))) (end_cursor st))
    as [cursor fetched].
  exists cursor. cbv zeta. cbn [snd].
  destruct (py_truthy (end_cursor st)); [rewrite <- app_assoc|]; reflexivity.
Qed.

Lemma fetch_count_request_block (cursor : value) :
  fetch_count (request_block wait tag cursor) = 1%nat.
Proof. unfold request_block. destruct (py_truthy cursor); reflexivity. Qed.

Lemma loop_invariant_initial : invariant (initial_state now).
Proof.
  unfold loop_invariant, initial_state. cbn [io all_posts end_cursor].
  repeat split. vm_compute. lia.
Qed.

(** How a pass through the body ends, from a state of the invariant. *)
Lemma loop_body_step (st : state) :
  invariant st ->
  match body st with
  | Continue st' => invariant st'
  | Break st' =>
      paced wait tag (io st') = true
      /\ hd_error (io st') = Some (Get tag None)
      /\ all_posts st' = posts_of_pages server (fetch_count (io st))
      /\ fetch_count (io st') = S (fetch_count (io st))
      /\ (fetch_count (io st) <= length (all_posts st'))%nat
  | Uncaught e st' =>
      paced wait tag (io st') = true
      /\ hd_error (io st') = Some (Get tag None)
      /\ fetch_count (io st') = S (fetch_count (io st))
      /\ e = ValueError
      /\ existsb created_time_empty
           (page_posts (server (fetch_count (io st)))) = true
  end.
Proof.
  intros (Hpaced & Hfirst & Hall & Hcount).
  destruct (loop_body_cases st) as (cursor & Hb). cbv zeta in Hb. rewrite Hb.
  assert (Hio : paced wait tag (io st ++ request_block wait tag (end_cursor st))
                = true).
  { rewrite paced_app by exact Hpaced. apply paced_request_block. }
  assert (Hn : fetch_count (io st ++ request_block wait tag (end_cursor st))
               = S (fetch_count (io st))).
  { rewrite fetch_count_app, fetch_count_request_block. lia. }
  assert (Hhd : hd_error (io st ++ request_block wait tag (end_cursor st))
                = Some (Get tag None)).
  { destruct (io st) as [|first rest]; [|rewrite Hfirst; reflexivity].
    rewrite Hfirst. reflexivity. }
  unfold page_posts.
  destruct (page_result (server (fetch_count (io st)))) as [posts|e] eqn:Hr.
  - destruct posts as [|p posts]; cbn [length Nat.eqb].
    + cbn [all_posts io]. repeat split; assumption.
    + pose proof (earliest_raises_on_missing_timestamp _ (p :: posts) Hr
                    ltac:(discriminate)) as He.
      destruct (existsb created_time_empty (p :: posts)) eqn:Hempty.
      * rewrite He. cbn [io]. repeat split; auto.
      * destruct He as (earliest & ->). unfold loop_invariant.
        cbn [all_posts io end_cursor]. rewrite Hn.
        split; [exact Hio|]. split.
        { destruct (io st ++ request_block wait tag (end_cursor st));
            [discriminate Hhd|]. injection Hhd as ->. reflexivity. }
        split.
        { rewrite posts_of_pages_S, Hall. unfold page_posts. rewrite Hr.
          reflexivity. }
        rewrite length_app. cbn [length]. lia.
  - cbn [all_posts io]. repeat split; assumption.
Qed.

(** Every way the loop ends, from a state of the invariant. *)
Lemma while_loop_outcome (fuel : nat) (st : state) (out : outcome) :
  invariant st -> loop fuel st = Some out ->
  paced wait tag (effects out) = true
  /\ match effects out with
     | [] => True
     | first :: _ => first = Get tag None
     end
  /\ match returned out with
     | Ok posts =>
         exists n, posts = posts_of_pages server n
           /\ (n <= fetch_count (effects out) <= S (length posts))%nat
     | Raise e =>
         e = ValueError
         /\ exists k, (k < fetch_count (effects out))%nat
              /\ existsb created_time_empty (page_posts (server k)) = true
     end.
Proof.
  assert (Hstop : forall st, invariant st ->
            paced wait tag (io st) = true
            /\ match io st with
               | [] => True
               | first :: _ => first = Get tag None
               end
            /\ exists n, all_posts st = posts_of_pages server n
                 /\ (n <= fetch_count (io st) <= S (length (all_posts st)))%nat).
  { intros st' (Hpaced & Hfirst & Hall & Hcount).
    split; [exact Hpaced|]. split; [destruct (io st'); auto|].
    exists (fetch_count (io st')). split; [exact Hall|]. lia. }
  revert st. induction fuel as [|fuel IH]; intros st Hinv; cbn [while_loop].
  - destruct (test st); [discriminate|]. intros [= <-]. apply Hstop, Hinv.
  - destruct (test st); [|intros [= <-]; apply Hstop, Hinv].
    pose proof (loop_body_step st Hinv) as Hstep.
    destruct (body st) as [st'|st'|e st'].
    + apply IH, Hstep.
    + intros [= <-]. cbn [effects returned].
      destruct Hstep as (Hpaced & Hhd & Hall & Hn & Hcount).
      split; [exact Hpaced|].
      split; [destruct (io st'); [exact I|injection Hhd as ->; reflexivity]|].
      exists (fetch_count (io st)). split; [exact Hall|]. lia.
    + intros [= <-]. cbn [effects returned].
      destruct Hstep as (Hpaced & Hhd & Hn & -> & Hempty).
      split; [exact Hpaced|].
      split; [destruct (io st'); [exact I|injection Hhd as ->; reflexivity]|].
      split; [reflexivity|].
      exists (fetch_count (io st)). split; [lia|exact Hempty].
Qed.

End LoopRuns.

(** X10: in every run of the loop that ends, each request that carries a
    cursor comes right after a wait of [wait] seconds, no other wait
    happens, every request is for the tag, and the first request carries
    no cursor. *)
Theorem requests_are_paced (tag : string) (min_datetime : datetime)
    (wait : Z) (now : datetime) (server : nat -> response) (fuel : nat)
    (out : outcome) :
  get_posts tag min_datetime wait now server fuel = Some out ->
  paced wait tag (effects out) = true
  /\ match effects out with
     | [] => True
     | first :: _ => first = Get tag None
     end.
Proof.
  intros H.
  destruct (while_loop_outcome tag min_datetime wait server fuel _ out
              (loop_invariant_initial tag wait now server) H)
    as (Hpaced & Hfirst & _).
  split; assumption.
Qed.

(** X11: a result set that is returned is made of the records of the
    first [n] pages, in page-arrival order, for some [n]; every record has
    the nine keys in their order; and every request but at most one has
    brought a record. *)
Theorem result_set_is_pages_in_order (tag : string) (min_datetime : datetime)
    (wait : Z) (now : datetime) (server : nat -> response) (fuel : nat)
    (out : outcome) (posts : list post) :
  get_posts tag min_datetime wait now server fuel = Some out ->
  returned out = Ok posts ->
  Forall (fun p => keys p = POST_KEYS) posts
  /\ exists n,
       posts = posts_of_pages server n
       /\ (n <= fetch_count (effects out) <= S (length posts))%nat.
Proof.
  intros H Hr.
  destruct (while_loop_outcome tag min_datetime wait server fuel _ out
              (loop_invariant_initial tag wait now server) H)
    as (_ & _ & Hret).
  rewrite Hr in Hret. destruct Hret as (n & -> & Hn).
  split; [apply posts_of_pages_keys|]. exists n. split; [reflexivity|exact Hn].
Qed.






(** X16: with records to export, what the output file held before plays
    no part: the file is overwritten, not appended to. *)
Theorem export_overwrites (str_of_container : value -> string)
    (posts : list post) (output_path old : string) (fs : filesystem) :
  posts <> [] ->
  export_posts str_of_container posts output_path (<[output_path := old]> fs)
  = export_posts str_of_container posts output_path fs.
Proof.
  intros Hne. rewrite !export_posts_ok.
  destruct posts; [congruence|].
  rewrite insert_insert_eq. reflexivity.
Qed.

Lemma ltb_irrefl (a : datetime) : ltb a a = false.
Proof.
  destruct (ltb a a) eqn:H; [|reflexivity].
  pose proof (ltb_asym a a H). congruence.
Qed.

Lemma min_from_in (best : datetime) (l : list datetime) :
  In (min_from best l) (best :: l).
Proof.
  revert best. induction l as [|d l IH]; intros best; cbn [min_from].
  - left. reflexivity.
  - destruct (IH (if ltb d best then d else best)) as [H|H].
    + rewrite <- H. destruct (ltb d best); [right; left|left]; reflexivity.
    + right. right. exact H.
Qed.

Lemma min_from_least (best x : datetime) (l : list datetime) :
  In x (best :: l) -> ltb x (min_from best l) = false.
Proof.
  intros Hin. rewrite ltb_min_from. destruct Hin as [<-|Hin].
  - rewrite ltb_irrefl. reflexivity.
  - apply andb_false_iff. right.
    apply not_true_is_false. intros Hall. rewrite forallb_forall in Hall.
    specialize (Hall x Hin). rewrite ltb_irrefl in Hall. discriminate.
Qed.

(** X8: the earliest timestamp the loop holds after a pass is the
    [created_time] of a record of the page just fetched, and no record of
    that page has an earlier one. *)
Theorem earliest_is_least_of_page (tag : string) (min_datetime : datetime)
    (wait : Z) (now : datetime) (server : nat -> response) (k : nat)
    (st : state) :
  state_after tag min_datetime wait now server (S k) = Some st ->
  exists ds,
    created_times (page_posts (server k)) = Ok ds
    /\ In (earliest_datetime_so_far st) ds
    /\ Forall (fun d => ltb d (earliest_datetime_so_far st) = false) ds.
Proof.
  intros Hst. apply iterate_snoc in Hst. destruct Hst as (st0 & H0 & Ht & Hb).
  destruct (state_after_pages _ _ _ _ _ _ _ H0) as [Hn _].
  destruct (loop_body_continue _ _ _ _ _ Hb) as (_ & Hearliest & _).
  rewrite Hn in Hearliest. unfold earliest_of in Hearliest.
  destruct (created_times (page_posts (server k))) as [ds|e]; [|discriminate].
  cbn [bind] in Hearliest. exists ds. split; [reflexivity|].
  destruct ds as [|d ds]; [discriminate|].
  injection Hearliest as <-.
  split; [apply min_from_in|].
  apply List.Forall_forall. intros x Hx. apply min_from_least, Hx.
Qed.

Lemma map_result_Forall2 {A B : Type} (f : A -> result B) (l : list A)
    (l' : list B) :
  map_result f l = Ok l' -> Forall2 (fun x y => f x = Ok y) l l'.
Proof.
  revert l'. induction l as [|x l IH]; intros l'; cbn [map_result].
  - intros [= <-]. constructor.
  - destruct (f x) as [y|e] eqn:Hy; cbn [bind]; [|discriminate].
    destruct (map_result f l) as [ys|e]; cbn [bind]; [|discriminate].
    intros [= <-]. constructor; [exact Hy|apply IH; reflexivity].
Qed.

(** X6: a page that is turned into posts gives one record per edge, in
    the order of the edges. *)
Theorem page_posts_follow_edges (data : value) (posts : list post) :
  page_result (Body data) = Ok posts ->
  exists edges items,
    navigate data (MEDIA_PATH ++ ["edges"]) = Ok edges
    /\ py_iter edges = Ok items
    /\ Forall2 (fun edge p => post_of_edge edge = Ok p) items posts.
Proof.
  unfold page_result, try_block.
  destruct (navigate data (MEDIA_PATH ++ ["page_info"; "end_cursor"]));
    cbn [snd]; [|discriminate].
  destruct (navigate data (MEDIA_PATH ++ ["edges"])) as [edges|e];
    cbn [bind]; [|discriminate].
  destruct (py_iter edges) as [items|e] eqn:Hitems; cbn [bind];
    [|discriminate].
  intros H. exists edges, items.
  split; [reflexivity|]. split; [exact Hitems|].
  apply map_result_Forall2, H.
Qed.




(** ** The further properties at work *)


Lemma created_time_text_injective_witness :
  convert_timestamp_to_string (PInt 1609459200) = Ok "2021-01-01 00:00:00"
  /\ 1609459200 = 1609459200.
Proof.
  assert (H : convert_timestamp_to_string (PInt 1609459200)
              = Ok "2021-01-01 00:00:00") by (vm_compute; reflexivity).
  split; [exact H|].
  exact (created_time_text_injective 1609459200 1609459200 _ H H).
Defined.

Lemma utcfromtimestamp_keeps_order_witness :
  utcfromtimestamp 1609459200 = Ok (midnight 2021 1 1)
  /\ utcfromtimestamp 1609545600 = Ok (midnight 2021 1 2)
  /\ ltb (midnight 2021 1 1) (midnight 2021 1 2) = (1609459200 <? 1609545600).
Proof.
  assert (H1 : utcfromtimestamp 1609459200 = Ok (midnight 2021 1 1))
    by (vm_compute; reflexivity).
  assert (H2 : utcfromtimestamp 1609545600 = Ok (midnight 2021 1 2))
    by (vm_compute; reflexivity).
  split; [exact H1|]. split; [exact H2|].
  exact (utcfromtimestamp_keeps_order _ _ _ _ H1 H2).
Defined.

Lemma page_posts_follow_edges_witness :
  exists posts edges items,
    page_result (Body (page_of "c1" [node_at "1" 1609459200])) = Ok posts
    /\ navigate (page_of "c1" [node_at "1" 1609459200])
         (MEDIA_PATH ++ ["edges"]) = Ok edges
    /\ py_iter edges = Ok items
    /\ Forall2 (fun edge p => post_of_edge edge = Ok p) items posts.
Proof.
  eexists.
  assert (H : page_result (Body (page_of "c1" [node_at "1" 1609459200]))
              = Ok _) by (vm_compute; reflexivity).
  destruct (page_posts_follow_edges _ _ H) as (edges & items & He & Hi & Hall).
  exists edges, items. split; [exact H|]. split; [exact He|].
  split; [exact Hi|exact Hall].
Defined.

Lemma earliest_raises_on_missing_timestamp_witness :
  exists posts,
    page_result (then_no_timestamp 1%nat) = Ok posts
    /\ posts <> []
    /\ earliest_of posts = Raise ValueError.
Proof.
  eexists.
  assert (H : page_result (then_no_timestamp 1%nat) = Ok _)
    by (vm_compute; reflexivity).
  split; [exact H|]. split; [discriminate|].
  exact (earliest_raises_on_missing_timestamp _ _ H ltac:(discriminate)).
Defined.

Lemma earliest_is_least_of_page_witness :
  exists st ds,
    state_after "cats" (midnight 2020 1 1) 20 noon_2021 two_pages 2 = Some st
    /\ created_times (page_posts (two_pages 1%nat)) = Ok ds
    /\ In (earliest_datetime_so_far st) ds
    /\ Forall (fun d => ltb d (earliest_datetime_so_far st) = false) ds.
Proof.
  eexists.
  assert (H : state_after "cats" (midnight 2020 1 1) 20 noon_2021 two_pages 2
              = Some _) by (vm_compute; reflexivity).
  destruct (earliest_is_least_of_page _ _ _ _ _ _ _ H) as (ds & Hds & Hin & Hall).
  exists ds. split; [exact H|]. split; [exact Hds|]. split; assumption.
Defined.


Lemma requests_are_paced_witness :
  exists out,
    get_posts "cats" (midnight 2020 1 1) 20 noon_2021 two_pages 10 = Some out
    /\ paced 20 "cats" (effects out) = true
    /\ fetch_count (effects out) = 3%nat.
Proof.
  eexists.
  assert (H : get_posts "cats" (midnight 2020 1 1) 20 noon_2021 two_pages 10
              = Some _) by (vm_compute; reflexivity).
  split; [exact H|].
  split; [apply (requests_are_paced _ _ _ _ _ _ _ H)|reflexivity].
Defined.

Lemma result_set_is_pages_in_order_witness :
  exists out posts,
    get_posts "cats" (midnight 2020 1 1) 20 noon_2021 two_pages 10 = Some out
    /\ returned out = Ok posts
    /\ Forall (fun p => keys p = POST_KEYS) posts
    /\ exists n,
         posts = posts_of_pages two_pages n
         /\ (n <= fetch_count (effects out) <= S (length posts))%nat.
Proof.
  eexists. eexists.
  assert (H : get_posts "cats" (midnight 2020 1 1) 20 noon_2021 two_pages 10
              = Some _) by (vm_compute; reflexivity).
  split; [exact H|]. split; [reflexivity|].
  exact (result_set_is_pages_in_order _ _ _ _ _ _ _ _ H eq_refl).
Defined.




Lemma export_overwrites_witness :
  [post_example] <> []
  /\ export_posts (fun _ => EmptyString) [post_example] "data.csv"
       (<["data.csv" := "old"]> ∅)
     = export_posts (fun _ => EmptyString) [post_example] "data.csv" ∅.
Proof.
  assert (Hne : [post_example] <> []) by discriminate.
  split; [exact Hne|].
  apply (export_overwrites (fun _ => EmptyString) [post_example] "data.csv"
           "old" ∅ Hne).
Defined.
